(** * dashclock: the refresh-and-render pipeline of [main.go]

    A shallow embedding of the terminal dashboard: the range query and its
    alignment on a fixed grid ([prometheusQueryRange], [findPromValue]),
    the layout breakpoints ([resizeUi]), the threshold colouring and the
    error panel ([syncProm]), and the cursor arithmetic of the event loop
    of [main].

    Go's [int] is the 64-bit two's complement integer, written here as a
    [Z] wrapped after every operation.  [float64] is the kernel's binary64
    ([PrimFloat]), so that [>] and [==] are the IEEE comparisons the
    program runs.  What the program gets from outside (the wall clock, the
    backend's answer, the terminal's size, the figure fonts) is an explicit
    argument. *)

From Stdlib Require Import ZArith List String Ascii Bool Lia DecimalString.
From Stdlib Require Import Permutation.
From Stdlib Require Import Floats.
Import ListNotations.

#[local] Open Scope Z_scope.

(** ** Go's [int] *)

Module GoInt.

Definition wrap (z : Z) : Z := (z + 2 ^ 63) mod 2 ^ 64 - 2 ^ 63.

Definition add (a b : Z) : Z := wrap (a + b).
Definition sub (a b : Z) : Z := wrap (a - b).
Definition mul (a b : Z) : Z := wrap (a * b).
Definition neg (a : Z) : Z := wrap (- a).

(** [a % b]: the remainder of the division truncated towards zero. *)
Definition rem (a b : Z) : Z := wrap (Z.rem a b).

Definition inRange (z : Z) : Prop := - 2 ^ 63 <= z < 2 ^ 63.

End GoInt.

(** ** [time.Time], [time.Duration], [time.Location]

    An instant is its number of nanoseconds since the Unix epoch.  The
    program only builds instants without a monotonic reading and in the
    [Local] location ([Round] strips the monotonic clock, [time.Unix]
    never has one), so Go's [==] on them is equality of instants.  A
    [Duration] is an [int64] count of nanoseconds. *)

Module GoTime.

Definition Time := Z.
Definition Duration := Z.

Definition Second : Duration := 1000000000.

(** [t.Round(time.Second)]: to the nearest second, halfway values up. *)
Definition RoundSecond (t : Time) : Time := (t + 500000000) / Second * Second.

Definition Add (t : Time) (d : Duration) : Time := t + d.

(** A location is its offset from UTC, in seconds, at each Unix second. *)
Record Location := { zoneOffset : Z -> Z }.

Definition UTC : Location := {| zoneOffset := fun _ => 0 |}.
Definition fixedZone (off : Z) : Location := {| zoneOffset := fun _ => off |}.

Definition digit (n : Z) : ascii := ascii_of_nat (48 + Z.to_nat n).

Definition twoDigits (n : Z) : string :=
  String (digit (n / 10)) (String (digit (n mod 10)) EmptyString).

(** [t.In(loc).Format("15:04")] *)
Definition formatHHMM (loc : Location) (t : Time) : string :=
  let unix := t / Second in
  let wall := unix + zoneOffset loc unix in
  (twoDigits (wall / 3600 mod 24) ++ ":" ++ twoDigits (wall / 60 mod 60))%string.

(** [t.In(loc).Format("1504")], the clock's digits. *)
Definition format1504 (loc : Location) (t : Time) : string :=
  let unix := t / Second in
  let wall := unix + zoneOffset loc unix in
  (twoDigits (wall / 3600 mod 24) ++ twoDigits (wall / 60 mod 60))%string.

End GoTime.

(** ** What a function call comes to *)

Inductive outcome (A : Type) : Type :=
| Returned (a : A)        (* the call returns *)
| Exited (msg : string)   (* os.Exit(1), directly or through log.Fatalf *)
| Panicked (msg : string) (* a run-time panic *).

Arguments Returned {A} a.
Arguments Exited {A} msg.
Arguments Panicked {A} msg.

Definition bind {A B : Type} (m : outcome A) (k : A -> outcome B) : outcome B :=
  match m with
  | Returned a => k a
  | Exited msg => Exited msg
  | Panicked msg => Panicked msg
  end.

Notation "x <- m ;; k" := (bind m (fun x => k))
  (at level 61, m at next level, right associativity).

(** ** The metrics backend *)

Module Prom.

(** [model.SamplePair]: a timestamp in milliseconds and a value. *)
Record SamplePair := { Timestamp : Z; Value : float }.

(** [model.SampleStream], of which the program reads the values only. *)
Record SampleStream := { Values : list SamplePair }.

(** [model.Value], by its [Type()]: a matrix, or one of the others. *)
Inductive ModelValue :=
| Matrix (m : list SampleStream)
| Vector
| Scalar
| StringValue
| NoneValue.

(** [v1.Range] *)
Record Range := { Start : GoTime.Time; End_ : GoTime.Time; Step : GoTime.Duration }.

(** [model.Time.Time()]: milliseconds to an instant. *)
Definition TimeOf (ms : Z) : GoTime.Time := ms * 1000000.

(** The world a range query runs in: whether [api.NewClient] accepts the
    address, the reading of [time.Now()], and what [QueryRange] answers
    ([None] for an error: network, backend or timeout). *)
Record World := {
  clientOk : string -> bool;
  clock : GoTime.Time;
  queryRange : string -> string -> Range -> option ModelValue
}.

(** [for _, sampleValue := range sampleSet.Values] *)
Fixpoint firstAt (values : list SamplePair) (timestamp : GoTime.Time)
    (nilValue : float) : float :=
  match values with
  | [] => nilValue
  | sampleValue :: rest =>
      if TimeOf (Timestamp sampleValue) =? timestamp
      then Value sampleValue
      else firstAt rest timestamp nilValue
  end.

Definition findPromValue (sampleSet : SampleStream) (timestamp : GoTime.Time)
    (nilValue : float) : float :=
  firstAt (Values sampleSet) timestamp nilValue.

(** The values of [i] in [for i := length; i >= 0; i--], in order. *)
Definition countdown (length : Z) : list Z :=
  map (fun k => length - Z.of_nat k) (seq 0 (Z.to_nat (length + 1))).

(** [timeNow.Add(-time.Second * time.Duration(i*intervalSeconds))] *)
Definition timeThen (timeNow : GoTime.Time) (i intervalSeconds : Z) : GoTime.Time :=
  GoTime.Add timeNow
    (GoInt.mul (GoInt.neg GoTime.Second) (GoInt.mul i intervalSeconds)).

(** The [v1.Range] of the query. *)
Definition window (timeNow : GoTime.Time) (length intervalSeconds : Z) : Range :=
  {| Start := GoTime.Add timeNow
                (GoInt.mul (GoInt.neg (GoInt.mul length intervalSeconds))
                           GoTime.Second);
     End_ := timeNow;
     Step := GoInt.mul intervalSeconds GoTime.Second |}.

(** One turn of the alignment loop. *)
Definition alignStep (result : list SampleStream) (timeNow : GoTime.Time)
    (intervalSeconds : Z) (nilValue : float) (tz : GoTime.Location)
    (acc : outcome (list float * list string)) (i : Z)
    : outcome (list float * list string) :=
  vl <- acc ;;
  match result with
  | [] => Panicked "index out of range: result.(model.Matrix)"
  | first :: _ =>
      let t := timeThen timeNow i intervalSeconds in
      Returned (fst vl ++ [findPromValue first t nilValue],
                snd vl ++ [GoTime.formatHHMM tz t])
  end.

Definition prometheusQueryRange (w : World) (promFlag query : string)
    (length intervalSeconds : Z) (nilValue : float) (tz : GoTime.Location)
    : outcome (list float * list string) :=
  if negb (clientOk w promFlag) then Exited "Error creating client"
  else
    let timeNow := GoTime.RoundSecond (clock w) in
    let r := window timeNow length intervalSeconds in
    match queryRange w promFlag query r with
    | None => Returned ([], [])
    | Some result =>
        match result with
        | Matrix m =>
            fold_left (alignStep m timeNow intervalSeconds nilValue tz)
                      (countdown length) (Returned ([], []))
        | _ => Exited "Only support model.Matrix return"
        end
    end.

End Prom.

(** ** The terminal widgets ([termui]) *)

Module Ui.

Inductive Color :=
| ColorClear | ColorBlack | ColorRed | ColorGreen | ColorYellow
| ColorBlue | ColorMagenta | ColorCyan | ColorWhite.

Definition Color_eqb (a b : Color) : bool :=
  match a, b with
  | ColorClear, ColorClear | ColorBlack, ColorBlack | ColorRed, ColorRed
  | ColorGreen, ColorGreen | ColorYellow, ColorYellow | ColorBlue, ColorBlue
  | ColorMagenta, ColorMagenta | ColorCyan, ColorCyan
  | ColorWhite, ColorWhite => true
  | _, _ => false
  end.

(** The arguments of [SetRect(x1, y1, x2, y2)]. *)
Record Rect := { X1 : Z; Y1 : Z; X2 : Z; Y2 : Z }.

Record Paragraph := { pRect : Rect; Text : string }.

Record Plot := {
  cRect : Rect;
  Title : string;
  Data : list (list float);
  DataLabels : list string;
  LabelAxesX : bool;
  LineColors0 : Color
}.

Inductive WidgetId := PClock | PDate | PMetric.

Inductive Drawable :=
| DrawParagraph (id : WidgetId) (p : Paragraph)
| DrawPlot (c : Plot).

(** What reaches the screen: [ui.Clear()] and [ui.Render(...)], with the
    widgets as they are when they are drawn. *)
Inductive Call :=
| Clear
| Render (ws : list Drawable).

Definition pSetRect (p : Paragraph) (r : Rect) : Paragraph :=
  {| pRect := r; Text := Text p |}.
Definition pSetText (p : Paragraph) (t : string) : Paragraph :=
  {| pRect := pRect p; Text := t |}.
Definition cSetRect (c : Plot) (r : Rect) : Plot :=
  {| cRect := r; Title := Title c; Data := Data c; DataLabels := DataLabels c;
     LabelAxesX := LabelAxesX c; LineColors0 := LineColors0 c |}.
Definition cSetTitle (c : Plot) (t : string) : Plot :=
  {| cRect := cRect c; Title := t; Data := Data c; DataLabels := DataLabels c;
     LabelAxesX := LabelAxesX c; LineColors0 := LineColors0 c |}.
Definition cSetLineColor (c : Plot) (k : Color) : Plot :=
  {| cRect := cRect c; Title := Title c; Data := Data c; DataLabels := DataLabels c;
     LabelAxesX := LabelAxesX c; LineColors0 := k |}.

Definition NewParagraph : Paragraph :=
  {| pRect := {| X1 := 0; Y1 := 0; X2 := 0; Y2 := 0 |}; Text := "" |}.
Definition NewPlot : Plot :=
  {| cRect := {| X1 := 0; Y1 := 0; X2 := 0; Y2 := 0 |}; Title := "";
     Data := []; DataLabels := []; LabelAxesX := false; LineColors0 := ColorRed |}.

End Ui.

(** ** The dashboard: the globals and the closures of [main] *)

Module Dash.

Import Ui.

Record Datasource := {
  DsTitle : string;
  DsQuery : string;
  DsProm : string;
  DsUnit : string;
  DsWarn : float;
  DsError : float
}.

(** What [loadConfig] leaves behind and nothing changes afterwards. *)
Record Config := {
  dsConfig : list Datasource;
  timezone : GoTime.Location;
  flagTest : bool
}.

Definition datasourceCount (cfg : Config) : Z :=
  Z.of_nat (List.length (dsConfig cfg)).

(** What [loadConfig] finds at the path of the [-file] flag. *)
Inductive ConfigFile :=
| Missing                            (* os.Stat fails *)
| Malformed                          (* os.Open or json.Unmarshal fails *)
| Decoded (ds : list Datasource).

(** [loadConfig], on what the file holds, on the location
    [time.LoadLocation] gives for the [-timezone] flag ([None] when it
    fails) and on the [-test] flag. *)
Definition loadConfig (file : ConfigFile) (tz : option GoTime.Location)
    (test : bool) : outcome Config :=
  match file with
  | Missing => Exited "Missing json config"
  | Malformed => Exited "invalid json"
  | Decoded ds =>
      if Z.of_nat (List.length ds) =? 0 then Exited "No datasources configured"
      else match tz with
           | None => Exited "failed to load timezone 1"
           | Some loc =>
               Returned {| dsConfig := ds; timezone := loc; flagTest := test |}
           end
  end.

(** [const nullValue = -999] *)
Definition nullValue : float := (-999)%float.

(** The libraries the closures call: the figure fonts
    ([figure.NewFigure(text, font, false).Slicify()]), [fmt]'s [%01.0f]
    and the calendar layouts of [time.Format]. *)
Record Host := {
  slicify : string -> string -> list string;
  sprintf_01_0f : float -> string;
  calendar : GoTime.Location -> GoTime.Time -> string -> string
}.

(** What one run of the sync job reads from outside. *)
Record Input := {
  terminal : Z * Z;          (* ui.TerminalDimensions() *)
  wallClock : nat -> GoTime.Time;  (* the four time.Now() of syncClock *)
  backend : Prom.World
}.

(** The package-level variables, the widgets and the two variables of
    [main] that the closures share. *)
Record State := {
  fontClock : string;
  fontClockWidth : Z;
  fontDate : string;
  fontDateWidth : Z;
  fontLabel : string;
  width : Z;
  height : Z;
  pClock : Paragraph;
  pDate : Paragraph;
  pMetric : Paragraph;
  chart0 : Plot;
  refreshUi : bool;
  syncPromCount : Z;
  screen : list Call
}.

Definition initial : State :=
  {| fontClock := ""; fontClockWidth := 0; fontDate := ""; fontDateWidth := 0;
     fontLabel := ""; width := 0; height := 0;
     pClock := NewParagraph; pDate := NewParagraph; pMetric := NewParagraph;
     chart0 := NewPlot; refreshUi := true; syncPromCount := 0; screen := [] |}.

Definition draw (c : Call) (s : State) : State :=
  {| fontClock := fontClock s; fontClockWidth := fontClockWidth s;
     fontDate := fontDate s; fontDateWidth := fontDateWidth s;
     fontLabel := fontLabel s; width := width s; height := height s;
     pClock := pClock s; pDate := pDate s; pMetric := pMetric s;
     chart0 := chart0 s; refreshUi := refreshUi s;
     syncPromCount := syncPromCount s; screen := screen s ++ [c] |}.

Definition setClock (p : Paragraph) (s : State) : State :=
  {| fontClock := fontClock s; fontClockWidth := fontClockWidth s;
     fontDate := fontDate s; fontDateWidth := fontDateWidth s;
     fontLabel := fontLabel s; width := width s; height := height s;
     pClock := p; pDate := pDate s; pMetric := pMetric s;
     chart0 := chart0 s; refreshUi := refreshUi s;
     syncPromCount := syncPromCount s; screen := screen s |}.

Definition setDate (p : Paragraph) (s : State) : State :=
  {| fontClock := fontClock s; fontClockWidth := fontClockWidth s;
     fontDate := fontDate s; fontDateWidth := fontDateWidth s;
     fontLabel := fontLabel s; width := width s; height := height s;
     pClock := pClock s; pDate := p; pMetric := pMetric s;
     chart0 := chart0 s; refreshUi := refreshUi s;
     syncPromCount := syncPromCount s; screen := screen s |}.

Definition setMetric (p : Paragraph) (s : State) : State :=
  {| fontClock := fontClock s; fontClockWidth := fontClockWidth s;
     fontDate := fontDate s; fontDateWidth := fontDateWidth s;
     fontLabel := fontLabel s; width := width s; height := height s;
     pClock := pClock s; pDate := pDate s; pMetric := p;
     chart0 := chart0 s; refreshUi := refreshUi s;
     syncPromCount := syncPromCount s; screen := screen s |}.

Definition setChart (c : Plot) (s : State) : State :=
  {| fontClock := fontClock s; fontClockWidth := fontClockWidth s;
     fontDate := fontDate s; fontDateWidth := fontDateWidth s;
     fontLabel := fontLabel s; width := width s; height := height s;
     pClock := pClock s; pDate := pDate s; pMetric := pMetric s;
     chart0 := c; refreshUi := refreshUi s;
     syncPromCount := syncPromCount s; screen := screen s |}.

Definition setRefreshUi (b : bool) (s : State) : State :=
  {| fontClock := fontClock s; fontClockWidth := fontClockWidth s;
     fontDate := fontDate s; fontDateWidth := fontDateWidth s;
     fontLabel := fontLabel s; width := width s; height := height s;
     pClock := pClock s; pDate := pDate s; pMetric := pMetric s;
     chart0 := chart0 s; refreshUi := b;
     syncPromCount := syncPromCount s; screen := screen s |}.

Definition setSyncPromCount (n : Z) (s : State) : State :=
  {| fontClock := fontClock s; fontClockWidth := fontClockWidth s;
     fontDate := fontDate s; fontDateWidth := fontDateWidth s;
     fontLabel := fontLabel s; width := width s; height := height s;
     pClock := pClock s; pDate := pDate s; pMetric := pMetric s;
     chart0 := chart0 s; refreshUi := refreshUi s;
     syncPromCount := n; screen := screen s |}.

Definition nl : string := String (ascii_of_nat 10) EmptyString.

(** [%0d] of an [int]. *)
Definition itoa (z : Z) : string := NilZero.string_of_int (Z.to_int z).

Definition len (s : string) : Z := Z.of_nat (String.length s).

Definition mkRect (x1 y1 x2 y2 : Z) : Rect :=
  {| X1 := x1; Y1 := y1; X2 := x2; Y2 := y2 |}.

(** [resizeUi], on the dimensions [ui.TerminalDimensions()] gives. *)
Definition resizeUi (dims : Z * Z) (s : State) : State :=
  let width := fst dims in
  let height := snd dims in
  if (width =? 240) && (height =? 30) then
    {| fontClock := "doh"; fontClockWidth := 109;
       fontDate := "standard"; fontDateWidth := 29;
       fontLabel := "standard"; width := width; height := height;
       pClock := pSetRect (pClock s) (mkRect 100 (-3) (GoInt.sub width 28) 17);
       pDate := pSetRect (pDate s)
                  (mkRect (GoInt.sub width 30) (-1) (GoInt.add width 1) 17);
       pMetric := pSetRect (pMetric s) (mkRect 0 4 (GoInt.sub width 140) 17);
       chart0 := cSetRect (chart0 s)
                   (mkRect 0 16 (GoInt.add width 1) (GoInt.add height 1));
       refreshUi := refreshUi s; syncPromCount := syncPromCount s;
       screen := screen s ++ [Clear] |}
  else if (131 <=? width) && (30 <=? height) then
    {| fontClock := "doh";
       fontClockWidth := GoInt.sub (GoInt.sub width 28) 4;
       fontDate := "standard"; fontDateWidth := 29;
       fontLabel := ""; width := width; height := height;
       pClock := pSetRect (pClock s) (mkRect 0 (-3) (GoInt.sub width 28) 17);
       pDate := pSetRect (pDate s)
                  (mkRect (GoInt.sub width 30) (-1) (GoInt.add width 1) 17);
       pMetric := pSetRect (pMetric s) (mkRect 0 4 (GoInt.sub width 140) 17);
       chart0 := cSetRect (chart0 s)
                   (mkRect 0 17 (GoInt.add width 1) (GoInt.add height 1));
       refreshUi := refreshUi s; syncPromCount := syncPromCount s;
       screen := screen s ++ [Clear] |}
  else if (68 <=? width) && (20 <=? height) then
    {| fontClock := "colossal";
       fontClockWidth := GoInt.sub (GoInt.sub width 16) 4;
       fontDate := "mini"; fontDateWidth := 17;
       fontLabel := ""; width := width; height := height;
       pClock := pSetRect (pClock s) (mkRect 0 0 (GoInt.sub width 16) 11);
       pDate := pSetRect (pDate s)
                  (mkRect (GoInt.sub width 18) (-1) (GoInt.add width 1) 11);
       pMetric := pSetRect (pMetric s) (mkRect 0 4 (GoInt.sub width 140) 11);
       chart0 := cSetRect (chart0 s)
                   (mkRect 0 11 (GoInt.add width 1) (GoInt.add height 1));
       refreshUi := refreshUi s; syncPromCount := syncPromCount s;
       screen := screen s ++ [Clear] |}
  else if (40 <=? width) && (16 <=? height) then
    {| fontClock := "standard";
       fontClockWidth := GoInt.sub (GoInt.sub width 6) 2;
       fontDate := "term"; fontDateWidth := 4;
       fontLabel := ""; width := width; height := height;
       pClock := pSetRect (pClock s) (mkRect (-2) (-1) (GoInt.sub width 4) 6);
       pDate := pSetRect (pDate s)
                  (mkRect (GoInt.sub width 5) 1 (GoInt.add width 1) 6);
       pMetric := pSetRect (pMetric s) (mkRect 0 4 (GoInt.sub width 140) 6);
       chart0 := cSetRect (chart0 s)
                   (mkRect 0 6 (GoInt.add width 1) (GoInt.add height 1));
       refreshUi := refreshUi s; syncPromCount := syncPromCount s;
       screen := screen s ++ [Clear] |}
  else
    let p :=
      {| pRect := mkRect (-1) (-1) (GoInt.add width 1) (GoInt.add height 1);
         Text := ("[Unsupported terminal size of " ++ itoa width ++ " x "
                  ++ itoa height ++ nl ++ "Resize or (q)uit](fg:red)")%string |} in
    {| fontClock := ""; fontClockWidth := fontClockWidth s;
       fontDate := fontDate s; fontDateWidth := fontDateWidth s;
       fontLabel := fontLabel s; width := width; height := height;
       pClock := p; pDate := pDate s; pMetric := pMetric s;
       chart0 := chart0 s;
       refreshUi := refreshUi s; syncPromCount := syncPromCount s;
       screen := screen s ++ [Clear; Render [DrawParagraph PClock p]] |}.

(** The scan of [syncProm] over the aligned values: one turn of
    [for _, d := range r0], on the colour of the line so far. *)
Definition colorStep (warn error : float) (lineColor : Color) (d : float) : Color :=
  if (warn <? d)%float && Color_eqb lineColor ColorGreen then ColorYellow
  else if (d =? nullValue)%float then ColorMagenta
  else if (error <? d)%float then ColorRed
  else lineColor.

(** The loop, from the colour [c]. *)
Definition scanFrom (warn error : float) (c : Color) (r0 : list float) : Color :=
  fold_left (colorStep warn error) r0 c.

(** [chart0.LineColors[0] = ui.ColorGreen], then the loop. *)
Definition scanColors (warn error : float) (r0 : list float) : Color :=
  scanFrom warn error ColorGreen r0.

(** [chart0.LineColors[0]] once [syncProm] has set it. *)
Definition lineColor (ds : Datasource) (r0 : list float) : Color :=
  if (0 <? DsWarn ds)%float then scanColors (DsWarn ds) (DsError ds) r0
  else ColorGreen.

(** [fontColor], from the last value. *)
Definition statusColor (ds : Datasource) (r0 : list float) : string :=
  let lastValue := last r0 0%float in
  if (0 <? DsWarn ds)%float then
    if (DsError ds <? lastValue)%float then "red"
    else if (lastValue <? 0)%float then "red"
    else if (DsWarn ds <? lastValue)%float then "yellow"
    else "white"
  else "white".

Definition join (l : list string) : string := String.concat nl l.

(** [dsConfig[i]] *)
Definition index (l : list Datasource) (i : Z) : outcome Datasource :=
  if i <? 0 then Panicked "index out of range: dsConfig"
  else match nth_error l (Z.to_nat i) with
       | Some ds => Returned ds
       | None => Panicked "index out of range: dsConfig"
       end.

(** [syncPromCount % datasourceCount] *)
Definition sourceIndex (cfg : Config) (s : State) : Z :=
  GoInt.rem (syncPromCount s) (datasourceCount cfg).

Definition syncProm (h : Host) (cfg : Config) (w : Prom.World) (s : State)
    : outcome State :=
  if datasourceCount cfg =? 0 then Panicked "integer divide by zero"
  else
    let i := sourceIndex cfg s in
    ds <- index (dsConfig cfg) i ;;
    rl <- Prom.prometheusQueryRange w (DsProm ds) (DsQuery ds)
            (GoInt.sub (width s) 8) 60 nullValue (timezone cfg) ;;
    let r0 := fst rl in
    let l0 := snd rl in
    let s1 :=
      if 0 <? Z.of_nat (List.length r0) then
        let c :=
          {| cRect := cRect (chart0 s); Title := Title (chart0 s);
             Data := [r0]; DataLabels := l0; LabelAxesX := true;
             LineColors0 := lineColor ds r0 |} in
        let fontColor := statusColor ds r0 in
        let value := (sprintf_01_0f h (last r0 0%float) ++ DsUnit ds)%string in
        if 0 <? len (fontLabel s) then
          let myFigLabel := slicify h (DsTitle ds) (fontLabel s) in
          let myFigValue := slicify h value (fontLabel s) in
          let p := pSetText (pMetric s)
                     ("[" ++ join myFigLabel ++ "](fg:white)" ++ nl
                      ++ "[" ++ join myFigValue ++ "](fg:" ++ fontColor ++ ")") in
          draw (Render [DrawPlot c])
            (draw (Render [DrawParagraph PMetric p])
               (setMetric p (setChart c s)))
        else
          let c' := cSetTitle c (DsTitle ds ++ " " ++ value) in
          draw (Render [DrawPlot c']) (setChart c' s)
      else
        if 0 <? len (fontLabel s) then
          let myFigLabel := slicify h (DsTitle ds) (fontLabel s) in
          let myFigValue := slicify h "PROM ERROR" (fontLabel s) in
          let p := pSetText (pMetric s)
                     ("[" ++ join myFigLabel ++ "](fg:red)" ++ nl
                      ++ "[" ++ join myFigValue ++ "](fg:" ++ "red" ++ ")") in
          draw (Render [DrawPlot (chart0 s)])
            (draw (Render [DrawParagraph PMetric p]) (setMetric p s))
        else
          let c' := cSetTitle (chart0 s)
                      (DsTitle ds ++ " PROM ERROR " ++ DsProm ds) in
          draw (Render [DrawPlot c']) (setChart c' s) in
    Returned (setSyncPromCount (GoInt.add (syncPromCount s1) 1) s1).

(** [strings.Repeat(" ", n)] for the counts [rightAlignText] passes. *)
Definition spaces (n : Z) : string :=
  String.concat "" (repeat " "%string (Z.to_nat n)).

Definition rightAlignText (text : list string) (width : Z) : list string :=
  let longestLength :=
    fold_left (fun m l => if m <? len l then len l else m) text 0 in
  if longestLength <? width
  then map (fun l => (spaces (GoInt.sub width longestLength) ++ l)%string) text
  else text.

Definition clockColor : string := "yellow".

Definition syncClock (h : Host) (cfg : Config) (now : nat -> GoTime.Time)
    (s : State) : outcome State :=
  let tz := timezone cfg in
  let timeNow :=
    if flagTest cfg then "2359"%string else GoTime.format1504 tz (now 0%nat) in
  let dateNow :=
    if flagTest cfg then "28"%string else calendar h tz (now 1%nat) "01" in
  let monthNow :=
    if flagTest cfg then "Mar"%string else calendar h tz (now 2%nat) "Jan" in
  let dayNow :=
    if flagTest cfg then "Wed"%string else calendar h tz (now 3%nat) "Mon" in
  match timeNow with
  | String a (String b (String c (String d _))) =>
      let one (x : ascii) := String x EmptyString in
      let digits :=
        if String.eqb (fontClock s) "doh"
        then (one a ++ "  " ++ one b ++ "  :  " ++ one c ++ "  " ++ one d)%string
        else (one a ++ one b ++ ":" ++ one c ++ one d)%string in
      let myFigClock := slicify h digits (fontClock s) in
      let pc := pSetText (pClock s)
                  ("[" ++ join (rightAlignText myFigClock (fontClockWidth s))
                   ++ "](fg:" ++ clockColor ++ ")") in
      let fig (t : string) :=
        join (rightAlignText (slicify h t (fontDate s)) (fontDateWidth s)) in
      let pd := pSetText (pDate s)
                  ("[" ++ fig dayNow ++ "](fg:white)" ++ nl
                   ++ "[" ++ fig dateNow ++ "](fg:white)" ++ nl
                   ++ "[" ++ fig monthNow ++ "](fg:white)") in
      Returned (draw (Render [DrawParagraph PClock pc; DrawParagraph PDate pd])
                  (setDate pd (setClock pc s)))
  | _ => Panicked "index out of range: timeNow"
  end.

Definition syncTerminal (h : Host) (cfg : Config) (inp : Input) (s : State)
    : outcome State :=
  let s1 := if refreshUi s
            then setRefreshUi false (resizeUi (terminal inp) s)
            else s in
  if 0 <? len (fontClock s1) then
    s2 <- syncClock h cfg (wallClock inp) s1 ;;
    syncProm h cfg (backend inp) s2
  else Returned s1.

Definition markRefresh (s : State) : State := setRefreshUi true s.

(** [strconv.Atoi] *)
Fixpoint parseDigits (s : string) (acc : Z) : option Z :=
  match s with
  | EmptyString => Some acc
  | String c rest =>
      let n := Z.of_nat (nat_of_ascii c) in
      if (48 <=? n) && (n <=? 57)
      then parseDigits rest (10 * acc + (n - 48))
      else None
  end.

Definition Atoi (s : string) : option Z :=
  let checked (sign : Z) (body : string) :=
    match body with
    | EmptyString => None
    | _ => match parseDigits body 0 with
           | Some n => if (sign * n <? 2 ^ 63) && (- 2 ^ 63 <=? sign * n)
                       then Some (sign * n) else None
           | None => None
           end
    end in
  match s with
  | String "-" body => checked (-1) body
  | String "+" body => checked 1 body
  | _ => checked 1 s
  end.

Definition oneOf (id : string) (ids : list string) : bool :=
  existsb (String.eqb id) ids.

(** What one turn of the event loop does with an event: it leaves the
    loop, or goes on, having called [cron.RunByTag("sync")] or not. *)
Inductive Handled :=
| Quit
| Continue (s : State) (runSync : bool).

Definition onEvent (cfg : Config) (id : string) (s : State) : Handled :=
  let bump (k : Z) :=
    GoInt.add (syncPromCount s) (GoInt.sub (datasourceCount cfg) k) in
  if oneOf id ["q"; "<C-c>"]%string then Quit
  else if oneOf id ["`"; "1"; "2"; "3"; "4"; "5"; "6"; "7"; "8"; "9"; "0"]%string then
    let i := match Atoi id with Some i => i | None => 0 end in
    Continue (setSyncPromCount i s) true
  else if oneOf id ["<Left>"; "<Down>"]%string then
    Continue (setSyncPromCount (bump 2) s) true
  else if oneOf id ["<Right>"; "<Up>"]%string then
    Continue s true
  else if oneOf id ["<Space>"]%string then
    Continue (setRefreshUi true (setSyncPromCount (bump 1) s)) true
  else if oneOf id ["<Resize>"]%string then
    Continue (setRefreshUi true (setSyncPromCount (bump 1) s)) true
  else Continue s false.

(** What happens to the shared variables, one thing at a time: a
    terminal event handled by the loop of [main], a run of the job tagged
    "sync" (from its timer or from [RunByTag]), a run of the hourly job. *)
Inductive Step :=
| UiEvent (id : string)
| SyncJob (inp : Input)
| HourlyJob.

Definition step (h : Host) (cfg : Config) (st : Step) (s : State)
    : outcome (option State) :=
  match st with
  | UiEvent id =>
      match onEvent cfg id s with
      | Quit => Returned None
      | Continue s' _ => Returned (Some s')
      end
  | SyncJob inp => s' <- syncTerminal h cfg inp s ;; Returned (Some s')
  | HourlyJob => Returned (Some (markRefresh s))
  end.

(** A run: the steps in order, until [main] returns ([None]). *)
Fixpoint run (h : Host) (cfg : Config) (steps : list Step) (s : State)
    : outcome (option State) :=
  match steps with
  | [] => Returned (Some s)
  | st :: rest =>
      r <- step h cfg st s ;;
      match r with
      | Some s' => run h cfg rest s'
      | None => Returned None
      end
  end.

End Dash.

(** ** The words of the specification

    What the specification says, written down next to the code, to state
    the properties with. *)

Module Spec.

Import Prom.

(** The grid: [now - i*stepSeconds], as an instant. *)
Definition gridTime (now : GoTime.Time) (i stepSeconds : Z) : GoTime.Time :=
  now - i * stepSeconds * 1000000000.

(** The value aligned at [t]: that of the sample at exactly [t] (the
    first one, should the response repeat a timestamp), the sentinel
    when the response has no sample at [t]. *)
Inductive alignedValue (samples : list SamplePair) (t : GoTime.Time)
    (sentinel : float) : float -> Prop :=
| aligned_hit (before after : list SamplePair) (p : SamplePair) :
    samples = before ++ p :: after ->
    TimeOf (Timestamp p) = t ->
    (forall q, In q before -> TimeOf (Timestamp q) <> t) ->
    alignedValue samples t sentinel (Value p)
| aligned_miss :
    (forall q, In q samples -> TimeOf (Timestamp q) <> t) ->
    alignedValue samples t sentinel sentinel.

(** The number of entries equal to the sentinel. *)
Definition sentinelCount (sentinel : float) (values : list float) : nat :=
  List.length (filter (fun v => (v =? sentinel)%float) values).

(** A single-series matrix. *)
Definition singleSeries (v : ModelValue) : bool :=
  match v with
  | Matrix [_] => true
  | _ => false
  end.

(** The same backend, answering with the first series alone where it
    answers with a matrix of several. *)
Definition firstSeriesOnly (w : World) : World :=
  {| clientOk := clientOk w;
     clock := clock w;
     queryRange := fun promFlag query r =>
       match queryRange w promFlag query r with
       | Some (Matrix (s :: _)) => Some (Matrix [s])
       | other => other
       end |}.

(** "Any multi-series or non-matrix response is an unsupported-shape
    fatal error". *)
Definition other_shapes_are_fatal : Prop :=
  forall (w : World) (promFlag query : string) (length intervalSeconds : Z)
         (nilValue : float) (tz : GoTime.Location) (v : ModelValue),
    clientOk w promFlag = true ->
    queryRange w promFlag query
      (window (GoTime.RoundSecond (clock w)) length intervalSeconds) = Some v ->
    singleSeries v = false ->
    exists msg,
      prometheusQueryRange w promFlag query length intervalSeconds nilValue tz
      = Exited msg.

(** The classifications of a point, weakest first:
    neutral < warn < error < missing. *)
Inductive Severity := Neutral | Warn | Error | Missing.

Definition rank (c : Severity) : nat :=
  match c with Neutral => 0 | Warn => 1 | Error => 2 | Missing => 3 end.

Definition classify (warn error d : float) : Severity :=
  if (d =? Dash.nullValue)%float then Missing
  else if (error <? d)%float then Error
  else if (warn <? d)%float then Warn
  else Neutral.

(** "The strongest classification observed anywhere in the window". *)
Definition strongest (warn error : float) (r0 : list float) : Severity :=
  fold_left (fun worst d =>
               if (rank worst <? rank (classify warn error d))%nat
               then classify warn error d else worst)
            r0 Neutral.

Definition colorOf (c : Severity) : Ui.Color :=
  match c with
  | Neutral => Ui.ColorGreen
  | Warn => Ui.ColorYellow
  | Error => Ui.ColorRed
  | Missing => Ui.ColorMagenta
  end.

(** A point that moves the line colour: above a threshold, or missing. *)
Definition escalates (warn error d : float) : bool :=
  (warn <? d)%float || (d =? Dash.nullValue)%float || (error <? d)%float.

(** The breakpoint rules of the layout, in the order they are tried. *)
Inductive Breakpoint := Panel | Wide | Medium | Compact | Unsupported.

Definition guard (r : Breakpoint) (w h : Z) : bool :=
  match r with
  | Panel => (w =? 240) && (h =? 30)
  | Wide => (131 <=? w) && (30 <=? h)
  | Medium => (68 <=? w) && (20 <=? h)
  | Compact => (40 <=? w) && (16 <=? h)
  | Unsupported => true
  end.

Definition earlier (r : Breakpoint) : list Breakpoint :=
  match r with
  | Panel => []
  | Wide => [Panel]
  | Medium => [Panel; Wide]
  | Compact => [Panel; Wide; Medium]
  | Unsupported => [Panel; Wide; Medium; Compact]
  end.

(** First match wins: a rule is selected when its condition holds and
    that of no rule before it does. *)
Definition selected (r : Breakpoint) (w h : Z) : bool :=
  guard r w h && forallb (fun r' => negb (guard r' w h)) (earlier r).

Definition breakpoint (w h : Z) : Breakpoint :=
  if guard Panel w h then Panel
  else if guard Wide w h then Wide
  else if guard Medium w h then Medium
  else if guard Compact w h then Compact
  else Unsupported.

(** The outcome a state of the dashboard shows, read off its fonts. *)
Definition outcomeOf (s : Dash.State) : option Breakpoint :=
  let clock := Dash.fontClock s in
  let date := Dash.fontDate s in
  let label := Dash.fontLabel s in
  if String.eqb clock "" then Some Unsupported
  else if String.eqb clock "doh" && String.eqb date "standard"
          && String.eqb label "standard" then Some Panel
  else if String.eqb clock "doh" && String.eqb date "standard"
          && String.eqb label "" then Some Wide
  else if String.eqb clock "colossal" && String.eqb date "mini"
          && String.eqb label "" then Some Medium
  else if String.eqb clock "standard" && String.eqb date "term"
          && String.eqb label "" then Some Compact
  else None.

(** The layout and font choices. *)
Definition layoutOf (s : Dash.State) :=
  (Dash.fontClock s, Dash.fontClockWidth s, Dash.fontDate s,
   Dash.fontDateWidth s, Dash.fontLabel s,
   (Ui.pRect (Dash.pClock s), Ui.pRect (Dash.pDate s),
    Ui.pRect (Dash.pMetric s), Ui.cRect (Dash.chart0 s))).

(** The advisory message. *)
Definition advisory (w h : Z) : Ui.Paragraph :=
  {| Ui.pRect := Dash.mkRect (-1) (-1) (GoInt.add w 1) (GoInt.add h 1);
     Ui.Text := ("[Unsupported terminal size of " ++ Dash.itoa w ++ " x "
                 ++ Dash.itoa h ++ Dash.nl ++ "Resize or (q)uit](fg:red)")%string |}.

(** The counter after [k] steps with [n] sources: it has not gone past
    what [k] steps can add, and it is negative only with a single source. *)
Definition counted (n k c : Z) : Prop :=
  - k <= c <= 9 + n * k /\ (n = 1 \/ 0 <= c).

(** What a call shows of a text: whether one of the widgets it draws
    has [needle] in its text or title. *)
Definition shows (needle : string) (c : Ui.Call) : bool :=
  let within (hay : string) :=
    match String.index 0 needle hay with Some _ => true | None => false end in
  match c with
  | Ui.Clear => false
  | Ui.Render ws =>
      existsb (fun d => match d with
                        | Ui.DrawParagraph _ p => within (Ui.Text p)
                        | Ui.DrawPlot c => within (Ui.Title c)
                        end) ws
  end.

(** The calls of [s'] that came after those of [s]. *)
Definition drawnSince (s s' : Dash.State) : list Ui.Call :=
  skipn (List.length (Dash.screen s)) (Dash.screen s').

(** "Render a per-source source error panel showing title and endpoint". *)
Definition error_panel_shows_endpoint : Prop :=
  forall (h : Dash.Host) (cfg : Dash.Config) (w : World) (s s' : Dash.State)
         (ds : Dash.Datasource),
    Dash.index (Dash.dsConfig cfg) (Dash.sourceIndex cfg s) = Returned ds ->
    clientOk w (Dash.DsProm ds) = true ->
    queryRange w (Dash.DsProm ds) (Dash.DsQuery ds)
      (window (GoTime.RoundSecond (clock w)) (GoInt.sub (Dash.width s) 8) 60)
    = None ->
    Dash.syncProm h cfg w s = Returned s' ->
    (exists c, In c (drawnSince s s') /\ shows (Dash.DsTitle ds) c = true)
    /\ (exists c, In c (drawnSince s s') /\ shows (Dash.DsProm ds) c = true).

End Spec.

(** ** Test data *)

Module Fixture.

Import Prom.

(** 12:00:00 UTC on 2023-11-15, and the two minutes before it. *)
Definition noon : Z := 1700049600.

Definition sample (unixSeconds : Z) (v : float) : SamplePair :=
  {| Timestamp := unixSeconds * 1000; Value := v |}.

Definition sparse : SampleStream :=
  {| Values := [sample (noon - 120) 7; sample (noon - 7) 8; sample noon 9] |}.

Definition full : SampleStream :=
  {| Values := [sample (noon - 120) 7; sample (noon - 60) 8; sample noon 9] |}.

Definition other : SampleStream :=
  {| Values := [sample (noon - 60) 1] |}.

(** A backend that answers every range query with [v], read 0.3 s
    after noon. *)
Definition answering (v : option ModelValue) : World :=
  {| clientOk := fun _ => true;
     clock := noon * 1000000000 + 300000000;
     queryRange := fun _ _ _ => v |}.

(** A source with [warn = 10] and [error = 40]. *)
Definition cpu : Dash.Datasource :=
  {| Dash.DsTitle := "cpu"; Dash.DsQuery := "up";
     Dash.DsProm := "http://prom:9090"; Dash.DsUnit := "%";
     Dash.DsWarn := 10; Dash.DsError := 40 |}.

Definition mem : Dash.Datasource :=
  {| Dash.DsTitle := "mem"; Dash.DsQuery := "node_memory";
     Dash.DsProm := "http://prom2:9090"; Dash.DsUnit := "G";
     Dash.DsWarn := 0; Dash.DsError := 0 |}.

Definition disk : Dash.Datasource :=
  {| Dash.DsTitle := "disk"; Dash.DsQuery := "node_disk";
     Dash.DsProm := "http://prom3:9090"; Dash.DsUnit := "%";
     Dash.DsWarn := 80; Dash.DsError := 90 |}.

Definition three : Dash.Config :=
  {| Dash.dsConfig := [cpu; mem; disk];
     Dash.timezone := GoTime.fixedZone 28800;
     Dash.flagTest := false |}.

Definition one : Dash.Config :=
  {| Dash.dsConfig := [cpu];
     Dash.timezone := GoTime.fixedZone 28800;
     Dash.flagTest := false |}.

(** Fonts that draw a text as itself, on one line. *)
Definition plain : Dash.Host :=
  {| Dash.slicify := fun text _ => [text];
     Dash.sprintf_01_0f := fun _ => "?"%string;
     Dash.calendar := fun _ _ layout => layout |}.

Definition tick (dims : Z * Z) (v : option ModelValue) : Dash.Input :=
  {| Dash.terminal := dims;
     Dash.wallClock := fun _ => noon * 1000000000;
     Dash.backend := answering v |}.

(** The dashboard laid out on a terminal of the given size. *)
Definition laid (dims : Z * Z) : Dash.State :=
  Dash.setRefreshUi false (Dash.resizeUi dims Dash.initial).

(** The state once [syncProm] has returned, [s] itself if it does not. *)
Definition shown (cfg : Dash.Config) (v : option ModelValue) (s : Dash.State)
    : Dash.State :=
  match Dash.syncProm plain cfg (answering v) s with
  | Returned s' => s'
  | _ => s
  end.

(** The state after one run of the sync job from the start of [main], on
    a terminal of the given size: the run's, [initial] if it does not
    return. *)
Definition afterTick (cfg : Dash.Config) (dims : Z * Z) (v : option ModelValue)
    : Dash.State :=
  match Dash.syncTerminal plain cfg (tick dims v) Dash.initial with
  | Returned s' => s'
  | _ => Dash.initial
  end.

(** The state a run ends in, [s] itself if it does not return one. *)
Definition ran (cfg : Dash.Config) (steps : list Dash.Step) (s : Dash.State)
    : Dash.State :=
  match Dash.run plain cfg steps s with
  | Returned (Some s') => s'
  | _ => s
  end.

(** The series the first source of [cfg] gets for the screen [s], the
    empty one if the call does not return. *)
Definition series (cfg : Dash.Config) (v : option ModelValue) (s : Dash.State)
    : list float * list string :=
  match Dash.dsConfig cfg with
  | ds :: _ =>
      match prometheusQueryRange (answering v) (Dash.DsProm ds) (Dash.DsQuery ds)
              (GoInt.sub (Dash.width s) 8) 60 Dash.nullValue (Dash.timezone cfg) with
      | Returned rl => rl
      | _ => ([], [])
      end
  | [] => ([], [])
  end.

End Fixture.

(** ** Notions for the further properties *)

Module Derived.

Import Prom.

(** The length of the longest line of a text, 0 for no line. *)
Definition widest (text : list string) : Z :=
  fold_right Z.max 0 (map Dash.len text).

(** The left padding that brings the longest line of [text] to [width]. *)
Definition padding (text : list string) (width : Z) : Z :=
  Z.max 0 (width - widest text).

(** A series without the samples that are not on a whole second. *)
Definition wholeSeconds (s : SampleStream) : SampleStream :=
  {| Values := filter (fun p => Timestamp p mod 1000 =? 0) (Values s) |}.

(** The same backend, its matrices cut down to the samples on whole
    seconds. *)
Definition onWholeSeconds (w : World) : World :=
  {| clientOk := clientOk w;
     clock := clock w;
     queryRange := fun promFlag query r =>
       match queryRange w promFlag query r with
       | Some (Matrix m) => Some (Matrix (map wholeSeconds m))
       | other => other
       end |}.

(** The points of a series that move the colour of the line. *)
Definition moving (warn error : float) (r0 : list float) : list float :=
  filter (Spec.escalates warn error) r0.

(** What the layout last chose and for which dimensions. *)
Definition look (s : Dash.State) :=
  (Dash.fontClock s, Dash.fontClockWidth s, Dash.fontDate s,
   Dash.fontDateWidth s, Dash.fontLabel s, Dash.width s, Dash.height s).

End Derived.

(** * Properties *)

(** ** Machine integers *)

Module GoIntFacts.

Import GoInt.

Lemma wrap_small (z : Z) : inRange z -> wrap z = z.
Proof.
  unfold inRange, wrap. intros H.
  rewrite Z.mod_small; lia.
Qed.

End GoIntFacts.

(** ** Lists *)

Module ListFacts.

Lemma skipn_length_app {A : Type} (l l' : list A) :
  skipn (List.length l) (l ++ l') = l'.
Proof. induction l; simpl; auto. Qed.

End ListFacts.

(** ** The range query and its alignment *)

Module PromFacts.

Import Prom Spec GoIntFacts.

Lemma countdown_length (length : Z) :
  List.length (countdown length) = Z.to_nat (length + 1).
Proof.
  unfold countdown. now rewrite length_map, length_seq.
Qed.

Lemma countdown_nth (length : Z) (k : nat) :
  (k < Z.to_nat (length + 1))%nat ->
  nth_error (countdown length) k = Some (length - Z.of_nat k).
Proof.
  intros Hk. unfold countdown.
  rewrite nth_error_map, nth_error_seq.
  destruct (Nat.ltb_spec k (Z.to_nat (length + 1))) as [_ | Hge]; [reflexivity | lia].
Qed.

(** Within the bounds of [int64] the instant of turn [i] is the grid's. *)
Lemma timeThen_grid (timeNow length intervalSeconds i : Z) :
  Z.abs (length * intervalSeconds) * 1000000000 < 2 ^ 63 ->
  0 <= i <= length ->
  timeThen timeNow i intervalSeconds = gridTime timeNow i intervalSeconds.
Proof.
  intros Hb Hi.
  assert (Habs : Z.abs (i * intervalSeconds) <= Z.abs (length * intervalSeconds)).
  { rewrite !Z.abs_mul. apply Z.mul_le_mono_nonneg_r; lia. }
  unfold timeThen, gridTime, GoTime.Add.
  replace (GoInt.neg GoTime.Second) with (- 1000000000) by reflexivity.
  unfold GoInt.mul.
  rewrite (wrap_small (i * intervalSeconds)) by (unfold GoInt.inRange; lia).
  rewrite wrap_small by (unfold GoInt.inRange; lia).
  lia.
Qed.

(** The loop, once the matrix has a first series: one value and one
    label a turn, appended in the order of the turns. *)
Lemma align_fold (first : SampleStream) (rest : list SampleStream)
    (timeNow intervalSeconds : Z) (nilValue : float) (tz : GoTime.Location)
    (turns : list Z) (values : list float) (labels : list string) :
  fold_left (alignStep (first :: rest) timeNow intervalSeconds nilValue tz)
    turns (Returned (values, labels))
  = Returned
      (values ++ map (fun i => findPromValue first
                                 (timeThen timeNow i intervalSeconds) nilValue) turns,
       labels ++ map (fun i => GoTime.formatHHMM tz
                                 (timeThen timeNow i intervalSeconds)) turns).
Proof.
  revert values labels.
  induction turns as [| i turns IH]; intros values labels; simpl.
  - now rewrite !app_nil_r.
  - rewrite IH. now rewrite <- !app_assoc.
Qed.

(** With no series at all the first turn fails, and so does the loop. *)
Lemma align_fold_empty (timeNow intervalSeconds : Z) (nilValue : float)
    (tz : GoTime.Location) (turns : list Z) (acc : list float * list string) :
  turns <> [] ->
  exists msg,
    fold_left (alignStep [] timeNow intervalSeconds nilValue tz)
      turns (Returned acc) = Panicked msg.
Proof.
  destruct turns as [| i turns]; [congruence | intros _].
  exists "index out of range: result.(model.Matrix)"%string.
  simpl. induction turns as [| j turns IH]; simpl; auto.
Qed.

Lemma firstAt_cases (samples : list SamplePair) (t : GoTime.Time) (nilValue : float) :
  (exists before p after,
      samples = before ++ p :: after
      /\ TimeOf (Timestamp p) = t
      /\ (forall q, In q before -> TimeOf (Timestamp q) <> t)
      /\ firstAt samples t nilValue = Value p)
  \/ ((forall q, In q samples -> TimeOf (Timestamp q) <> t)
      /\ firstAt samples t nilValue = nilValue).
Proof.
  induction samples as [| p samples IH]; simpl.
  - right. split; [intros q [] | reflexivity].
  - destruct (TimeOf (Timestamp p) =? t) eqn:E.
    + apply Z.eqb_eq in E. left. exists [], p, samples.
      repeat split; auto.
    + apply Z.eqb_neq in E.
      destruct IH as [(before & p' & after & Hsplit & Ht & Hbefore & Hv) | [Hmiss Hv]].
      * left. exists (p :: before), p', after.
        repeat split; auto.
        -- simpl. now rewrite Hsplit.
        -- intros q [<- | Hq]; auto.
      * right. split; auto. intros q [<- | Hq]; auto.
Qed.

Lemma findPromValue_aligned (s : SampleStream) (t : GoTime.Time) (nilValue : float) :
  alignedValue (Values s) t nilValue (findPromValue s t nilValue).
Proof.
  unfold findPromValue.
  destruct (firstAt_cases (Values s) t nilValue)
    as [(before & p & after & Hsplit & Ht & Hbefore & ->) | [Hmiss ->]].
  - now apply (aligned_hit _ _ _ before after p).
  - now apply aligned_miss.
Qed.

(** The answer for a matrix with a first series, under the bounds. *)
Lemma prometheusQueryRange_first (w : World) (promFlag query : string)
    (length intervalSeconds : Z) (nilValue : float) (tz : GoTime.Location)
    (s : SampleStream) (rest : list SampleStream) :
  clientOk w promFlag = true ->
  queryRange w promFlag query
    (window (GoTime.RoundSecond (clock w)) length intervalSeconds)
  = Some (Matrix (s :: rest)) ->
  prometheusQueryRange w promFlag query length intervalSeconds nilValue tz
  = Returned
      (map (fun i => findPromValue s
              (timeThen (GoTime.RoundSecond (clock w)) i intervalSeconds) nilValue)
           (countdown length),
       map (fun i => GoTime.formatHHMM tz
              (timeThen (GoTime.RoundSecond (clock w)) i intervalSeconds))
           (countdown length)).
Proof.
  intros Hc Hq. unfold prometheusQueryRange.
  rewrite Hc. simpl. rewrite Hq. now rewrite align_fold.
Qed.

(** C1. For a successful single-series matrix response and a window
    length that is not negative (and small enough for [i*intervalSeconds]
    seconds to fit a [Duration]), [prometheusQueryRange] returns exactly
    [length+1] values and as many labels, oldest first: the point at
    position [length-i] carries the value of the sample whose timestamp
    is exactly [now - i*intervalSeconds] when the response has one and
    the sentinel [nilValue] otherwise, and its label is that instant
    formatted as HH:MM in the display time zone. *)
Theorem prometheusQueryRange_grid (w : World) (promFlag query : string)
    (length intervalSeconds : Z) (nilValue : float) (tz : GoTime.Location)
    (s : SampleStream) :
  clientOk w promFlag = true ->
  queryRange w promFlag query
    (window (GoTime.RoundSecond (clock w)) length intervalSeconds)
  = Some (Matrix [s]) ->
  0 <= length ->
  Z.abs (length * intervalSeconds) * 1000000000 < 2 ^ 63 ->
  exists values labels,
    prometheusQueryRange w promFlag query length intervalSeconds nilValue tz
    = Returned (values, labels)
    /\ Z.of_nat (List.length values) = length + 1
    /\ Z.of_nat (List.length labels) = length + 1
    /\ forall i, 0 <= i <= length ->
         let t := gridTime (GoTime.RoundSecond (clock w)) i intervalSeconds in
         exists v,
           nth_error values (Z.to_nat (length - i)) = Some v
           /\ alignedValue (Values s) t nilValue v
           /\ nth_error labels (Z.to_nat (length - i))
              = Some (GoTime.formatHHMM tz t).
Proof.
  intros Hc Hq Hlen Hb.
  eexists _, _. split.
  { exact (prometheusQueryRange_first w promFlag query length intervalSeconds
             nilValue tz s [] Hc Hq). }
  rewrite !length_map, countdown_length.
  repeat split; try lia.
  intros i Hi t.
  assert (Hk : (Z.to_nat (length - i) < Z.to_nat (length + 1))%nat) by lia.
  pose proof (countdown_nth length _ Hk) as Hnth.
  replace (length - Z.of_nat (Z.to_nat (length - i))) with i in Hnth by lia.
  exists (findPromValue s t nilValue).
  rewrite !nth_error_map, Hnth. simpl.
  rewrite (timeThen_grid _ length) by assumption.
  repeat split. apply findPromValue_aligned.
Qed.

Lemma prometheusQueryRange_grid_witness :
  exists values labels,
    prometheusQueryRange (Fixture.answering (Some (Matrix [Fixture.sparse])))
      "http://prom:9090" "up" 2 60 Dash.nullValue (GoTime.fixedZone 28800)
    = Returned (values, labels)
    /\ Z.of_nat (List.length values) = 2 + 1
    /\ Z.of_nat (List.length labels) = 2 + 1
    /\ forall i, 0 <= i <= 2 ->
         let t := gridTime (GoTime.RoundSecond
                     (clock (Fixture.answering (Some (Matrix [Fixture.sparse])))))
                    i 60 in
         exists v,
           nth_error values (Z.to_nat (2 - i)) = Some v
           /\ alignedValue (Values Fixture.sparse) t Dash.nullValue v
           /\ nth_error labels (Z.to_nat (2 - i))
              = Some (GoTime.formatHHMM (GoTime.fixedZone 28800) t).
Proof.
  apply (prometheusQueryRange_grid
           (Fixture.answering (Some (Matrix [Fixture.sparse])))
           "http://prom:9090" "up" 2 60 Dash.nullValue (GoTime.fixedZone 28800)
           Fixture.sparse).
  - reflexivity.
  - reflexivity.
  - lia.
  - vm_compute. reflexivity.
Defined.

(** The sparse response on a three-point grid: the middle point is
    missing, the labels are the grid's minutes in UTC+8. *)
Example prometheusQueryRange_sparse :
  prometheusQueryRange (Fixture.answering (Some (Matrix [Fixture.sparse])))
    "http://prom:9090" "up" 2 60 Dash.nullValue (GoTime.fixedZone 28800)
  = Returned ([7; -999; 9]%float, ["19:58"; "19:59"; "20:00"]%string).
Proof. reflexivity. Qed.

Lemma sentinelCount_zero (sentinel : float) (values : list float) :
  (forall v, In v values -> (v =? sentinel)%float = false) ->
  sentinelCount sentinel values = 0%nat.
Proof.
  unfold sentinelCount. induction values as [| v values IH]; intros H; simpl.
  - reflexivity.
  - rewrite (H v (or_introl eq_refl)). apply IH.
    intros v' Hv'. apply H. now right.
Qed.

(** C8. When the response has a sample at every grid timestamp
    [now - i*intervalSeconds], [i] in [0, length], every value
    [prometheusQueryRange] emits is the value of a sample of the response
    at the grid timestamp of its position; and, no metric value being
    equal to the sentinel, the aligned series has no sentinel entry. *)
Theorem full_response_no_sentinel (w : World) (promFlag query : string)
    (length intervalSeconds : Z) (nilValue : float) (tz : GoTime.Location)
    (s : SampleStream) :
  clientOk w promFlag = true ->
  queryRange w promFlag query
    (window (GoTime.RoundSecond (clock w)) length intervalSeconds)
  = Some (Matrix [s]) ->
  0 <= length ->
  Z.abs (length * intervalSeconds) * 1000000000 < 2 ^ 63 ->
  (forall i, 0 <= i <= length ->
     exists p, In p (Values s)
               /\ TimeOf (Timestamp p)
                  = gridTime (GoTime.RoundSecond (clock w)) i intervalSeconds) ->
  exists values labels,
    prometheusQueryRange w promFlag query length intervalSeconds nilValue tz
    = Returned (values, labels)
    /\ (forall k v, nth_error values k = Some v ->
          exists p, In p (Values s)
                    /\ TimeOf (Timestamp p)
                       = gridTime (GoTime.RoundSecond (clock w))
                           (length - Z.of_nat k) intervalSeconds
                    /\ v = Value p)
    /\ ((forall p, In p (Values s) -> (Value p =? nilValue)%float = false) ->
        sentinelCount nilValue values = 0%nat).
Proof.
  intros Hc Hq Hlen Hb Hfull.
  eexists _, _. split.
  { exact (prometheusQueryRange_first w promFlag query length intervalSeconds
             nilValue tz s [] Hc Hq). }
  assert (Hfrom : forall k v,
    nth_error (map (fun i => findPromValue s
                 (timeThen (GoTime.RoundSecond (clock w)) i intervalSeconds)
                 nilValue) (countdown length)) k = Some v ->
    exists p, In p (Values s)
              /\ TimeOf (Timestamp p)
                 = gridTime (GoTime.RoundSecond (clock w))
                     (length - Z.of_nat k) intervalSeconds
              /\ v = Value p).
  { intros k v Hk. rewrite nth_error_map in Hk.
    destruct (nth_error (countdown length) k) as [i |] eqn:Hi; [| discriminate].
    injection Hk as <-.
    assert (Hlt : (k < Z.to_nat (length + 1))%nat).
    { rewrite <- countdown_length. apply nth_error_Some. congruence. }
    rewrite (countdown_nth _ _ Hlt) in Hi. injection Hi as <-.
    rewrite (timeThen_grid _ length) by (auto; lia).
    unfold findPromValue.
    destruct (firstAt_cases (Values s)
                (gridTime (GoTime.RoundSecond (clock w))
                   (length - Z.of_nat k) intervalSeconds) nilValue)
      as [(before & p & after & Hsplit & Ht & _ & Hv) | [Hmiss _]].
    - exists p. repeat split; auto.
      rewrite Hsplit. apply in_or_app. right. now left.
    - destruct (Hfull (length - Z.of_nat k) ltac:(lia)) as (p & Hin & Ht).
      now elim (Hmiss p Hin). }
  split; [exact Hfrom |].
  intros Hvalid. apply sentinelCount_zero.
  intros v Hv. apply In_nth_error in Hv. destruct Hv as [k Hk].
  destruct (Hfrom k v Hk) as (p & Hin & _ & ->). now apply Hvalid.
Qed.

Lemma full_response_no_sentinel_witness :
  exists values labels,
    prometheusQueryRange (Fixture.answering (Some (Matrix [Fixture.full])))
      "http://prom:9090" "up" 2 60 Dash.nullValue GoTime.UTC
    = Returned (values, labels)
    /\ (forall k v, nth_error values k = Some v ->
          exists p, In p (Values Fixture.full)
                    /\ TimeOf (Timestamp p)
                       = gridTime (GoTime.RoundSecond
                            (clock (Fixture.answering (Some (Matrix [Fixture.full])))))
                           (2 - Z.of_nat k) 60
                    /\ v = Value p)
    /\ ((forall p, In p (Values Fixture.full) ->
           (Value p =? Dash.nullValue)%float = false) ->
        sentinelCount Dash.nullValue values = 0%nat).
Proof.
  apply (full_response_no_sentinel
           (Fixture.answering (Some (Matrix [Fixture.full])))
           "http://prom:9090" "up" 2 60 Dash.nullValue GoTime.UTC Fixture.full).
  - reflexivity.
  - reflexivity.
  - lia.
  - vm_compute. reflexivity.
  - intros i Hi.
    assert (Hcases : i = 0 \/ i = 1 \/ i = 2) by lia.
    destruct Hcases as [-> | [-> | ->]].
    + exists (Fixture.sample Fixture.noon 9). split; [simpl; tauto | reflexivity].
    + exists (Fixture.sample (Fixture.noon - 60) 8). split; [simpl; tauto | reflexivity].
    + exists (Fixture.sample (Fixture.noon - 120) 7). split; [simpl; tauto | reflexivity].
Defined.

Example prometheusQueryRange_full :
  prometheusQueryRange (Fixture.answering (Some (Matrix [Fixture.full])))
    "http://prom:9090" "up" 2 60 Dash.nullValue GoTime.UTC
  = Returned ([7; 8; 9]%float, ["11:58"; "11:59"; "12:00"]%string).
Proof. reflexivity. Qed.

(** C7, as the specification has it, fails: a matrix of two series is
    not fatal, its first series is aligned and returned. *)
Lemma two_series_are_aligned : ~ other_shapes_are_fatal.
Proof.
  intros H.
  destruct (H (Fixture.answering (Some (Matrix [Fixture.sparse; Fixture.other])))
              "http://prom:9090"%string "up"%string 2 60 Dash.nullValue GoTime.UTC
              (Matrix [Fixture.sparse; Fixture.other])
              eq_refl eq_refl eq_refl) as [msg Hmsg].
  discriminate Hmsg.
Qed.

Example prometheusQueryRange_two_series :
  prometheusQueryRange
    (Fixture.answering (Some (Matrix [Fixture.sparse; Fixture.other])))
    "http://prom:9090" "up" 2 60 Dash.nullValue GoTime.UTC
  = Returned ([7; -999; 9]%float, ["11:58"; "11:59"; "12:00"]%string).
Proof. reflexivity. Qed.

(** C7, amended. A result that is not a matrix is fatal: the process
    exits.  A matrix of one or more series is not: the call returns what
    it returns for the first series alone, the others are ignored.  A
    matrix of no series, for a window length that is not negative, ends
    the call in a run-time panic and nothing is aligned. *)
Theorem result_shapes (w : World) (promFlag query : string)
    (length intervalSeconds : Z) (nilValue : float) (tz : GoTime.Location)
    (v : ModelValue) :
  clientOk w promFlag = true ->
  queryRange w promFlag query
    (window (GoTime.RoundSecond (clock w)) length intervalSeconds) = Some v ->
  match v with
  | Matrix [] =>
      0 <= length ->
      exists msg,
        prometheusQueryRange w promFlag query length intervalSeconds nilValue tz
        = Panicked msg
  | Matrix (s :: rest) =>
      prometheusQueryRange w promFlag query length intervalSeconds nilValue tz
      = prometheusQueryRange (firstSeriesOnly w) promFlag query length
          intervalSeconds nilValue tz
      /\ exists values labels,
           prometheusQueryRange w promFlag query length intervalSeconds nilValue tz
           = Returned (values, labels)
           /\ List.length values = Z.to_nat (length + 1)
           /\ List.length labels = Z.to_nat (length + 1)
  | _ =>
      exists msg,
        prometheusQueryRange w promFlag query length intervalSeconds nilValue tz
        = Exited msg
  end.
Proof.
  intros Hc Hq.
  destruct v as [[| s rest] | | | |];
    try (eexists; unfold prometheusQueryRange; rewrite Hc; simpl; rewrite Hq;
         reflexivity).
  - intros Hlen. unfold prometheusQueryRange. rewrite Hc. simpl. rewrite Hq.
    apply align_fold_empty.
    intros Hnil. apply (f_equal (@List.length Z)) in Hnil.
    rewrite countdown_length in Hnil. simpl in Hnil. lia.
  - rewrite (prometheusQueryRange_first _ _ _ _ _ nilValue tz s rest Hc Hq).
    split.
    + symmetry.
      apply (prometheusQueryRange_first (firstSeriesOnly w) promFlag query
               length intervalSeconds nilValue tz s []).
      * exact Hc.
      * simpl. now rewrite Hq.
    + eexists _, _. split; [reflexivity |].
      now rewrite !length_map, countdown_length.
Qed.

Lemma result_shapes_witness :
  prometheusQueryRange
    (Fixture.answering (Some (Matrix [Fixture.sparse; Fixture.other])))
    "http://prom:9090" "up" 2 60 Dash.nullValue GoTime.UTC
  = prometheusQueryRange
      (firstSeriesOnly
         (Fixture.answering (Some (Matrix [Fixture.sparse; Fixture.other]))))
      "http://prom:9090" "up" 2 60 Dash.nullValue GoTime.UTC
  /\ exists values labels,
       prometheusQueryRange
         (Fixture.answering (Some (Matrix [Fixture.sparse; Fixture.other])))
         "http://prom:9090" "up" 2 60 Dash.nullValue GoTime.UTC
       = Returned (values, labels)
       /\ List.length values = Z.to_nat (2 + 1)
       /\ List.length labels = Z.to_nat (2 + 1).
Proof.
  exact (result_shapes
           (Fixture.answering (Some (Matrix [Fixture.sparse; Fixture.other])))
           "http://prom:9090" "up" 2 60 Dash.nullValue GoTime.UTC
           (Matrix [Fixture.sparse; Fixture.other]) eq_refl eq_refl).
Defined.

(** The other shapes, run: a vector exits, an empty matrix panics. *)
Example prometheusQueryRange_vector :
  prometheusQueryRange (Fixture.answering (Some Vector))
    "http://prom:9090" "up" 2 60 Dash.nullValue GoTime.UTC
  = Exited "Only support model.Matrix return".
Proof. reflexivity. Qed.

Example prometheusQueryRange_empty_matrix :
  prometheusQueryRange (Fixture.answering (Some (Matrix [])))
    "http://prom:9090" "up" 2 60 Dash.nullValue GoTime.UTC
  = Panicked "index out of range: result.(model.Matrix)".
Proof. reflexivity. Qed.

End PromFacts.

(** ** The colour of the line *)

Module ColorFacts.

Import Ui Dash Spec.

Lemma nullValue_SF : Prim2SF nullValue = S754_finite true 8787296929185792 (-43).
Proof. vm_compute. reflexivity. Qed.

Lemma zero_SF : Prim2SF 0%float = S754_zero false.
Proof. vm_compute. reflexivity. Qed.

(** The sentinel is below every positive threshold. *)
Lemma sentinel_not_above (warn d : float) :
  (0 <? warn)%float = true ->
  (d =? nullValue)%float = true ->
  (warn <? d)%float = false.
Proof.
  rewrite !ltb_spec, eqb_spec, nullValue_SF, zero_SF.
  destruct (Prim2SF warn) as [[] | [] | | [] mw ew];
    destruct (Prim2SF d) as [[] | [] | | [] md ed];
    unfold SFltb, SFeqb, SFcompare; try discriminate; try reflexivity.
Qed.

Section Scan.

Variables warn error : float.

Lemma colorStep_green (c : Color) (d : float) :
  colorStep warn error c d = ColorGreen ->
  c = ColorGreen /\ escalates warn error d = false.
Proof.
  unfold colorStep, escalates.
  destruct (warn <? d)%float, (d =? nullValue)%float, (error <? d)%float,
    c; simpl; intros H; try discriminate H; auto.
Qed.

Lemma colorStep_calm (c : Color) (d : float) :
  escalates warn error d = false -> colorStep warn error c d = c.
Proof.
  unfold colorStep, escalates.
  destruct (warn <? d)%float, (d =? nullValue)%float, (error <? d)%float;
    simpl; intros H; try discriminate H; reflexivity.
Qed.

Lemma scan_green (r0 : list float) (c : Color) :
  scanFrom warn error c r0 = ColorGreen <->
  c = ColorGreen /\ forall d, In d r0 -> escalates warn error d = false.
Proof.
  unfold scanFrom. revert c.
  induction r0 as [| d r0 IH]; intros c; simpl.
  - split; [intros ->; split; [reflexivity | intros d []] | intros [-> _]; reflexivity].
  - rewrite IH. split.
    + intros [Hstep Hrest].
      apply colorStep_green in Hstep. destruct Hstep as [-> Hd].
      split; [reflexivity |]. intros x [<- | Hx]; auto.
    + intros [-> Hall]. split.
      * rewrite colorStep_calm; auto.
      * intros x Hx. apply Hall. now right.
Qed.

(** Warn-level points alone: yellow from the first of them on. *)
Lemma scan_yellow_stays (r0 : list float) :
  (forall d, In d r0 -> (d =? nullValue)%float = false /\ (error <? d)%float = false) ->
  scanFrom warn error ColorYellow r0 = ColorYellow.
Proof.
  unfold scanFrom. induction r0 as [| d r0 IH]; intros H; simpl; [reflexivity |].
  destruct (H d (or_introl eq_refl)) as [Hn He].
  unfold colorStep at 2. rewrite Hn, He, andb_false_r.
  apply IH. intros x Hx. apply H. now right.
Qed.

Lemma scan_warn_only (r0 : list float) :
  (forall d, In d r0 -> (d =? nullValue)%float = false /\ (error <? d)%float = false) ->
  (exists d, In d r0 /\ (warn <? d)%float = true) ->
  scanFrom warn error ColorGreen r0 = ColorYellow.
Proof.
  unfold scanFrom. induction r0 as [| d r0 IH]; intros H [x [Hx Hw]]; simpl.
  - destruct Hx.
  - destruct (H d (or_introl eq_refl)) as [Hn He].
    unfold colorStep at 2. rewrite Hn, He. simpl.
    destruct (warn <? d)%float eqn:Hd; simpl.
    + apply scan_yellow_stays. intros y Hy. apply H. now right.
    + apply IH.
      * intros y Hy. apply H. now right.
      * destruct Hx as [<- | Hx]; [congruence |]. now exists x.
Qed.

(** Once missing, the line stays missing until a point above [error]. *)
Lemma scan_missing_stays (r0 : list float) :
  (forall d, In d r0 -> (error <? d)%float = false) ->
  scanFrom warn error ColorMagenta r0 = ColorMagenta.
Proof.
  unfold scanFrom. induction r0 as [| d r0 IH]; intros H; simpl; [reflexivity |].
  replace (colorStep warn error ColorMagenta d) with ColorMagenta.
  - apply IH. intros x Hx. apply H. now right.
  - unfold colorStep. rewrite (H d (or_introl eq_refl)), andb_false_r.
    now destruct (d =? nullValue)%float.
Qed.

(** Once error, the line stays error until a sentinel. *)
Lemma scan_error_stays (r0 : list float) :
  (forall d, In d r0 -> (d =? nullValue)%float = false) ->
  scanFrom warn error ColorRed r0 = ColorRed.
Proof.
  unfold scanFrom. induction r0 as [| d r0 IH]; intros H; simpl; [reflexivity |].
  replace (colorStep warn error ColorRed d) with ColorRed.
  - apply IH. intros x Hx. apply H. now right.
  - unfold colorStep. rewrite (H d (or_introl eq_refl)), andb_false_r.
    now destruct (error <? d)%float.
Qed.

Lemma scan_split (before after : list float) (d : float) (c : Color) :
  scanFrom warn error c (before ++ d :: after)
  = scanFrom warn error (colorStep warn error (scanFrom warn error c before) d) after.
Proof.
  unfold scanFrom. now rewrite fold_left_app.
Qed.

Lemma scan_ends_missing (before after : list float) (d : float) :
  (0 <? warn)%float = true ->
  (d =? nullValue)%float = true ->
  (forall x, In x after -> (error <? x)%float = false) ->
  scanFrom warn error ColorGreen (before ++ d :: after) = ColorMagenta.
Proof.
  intros Hw Hd Hafter. rewrite scan_split.
  replace (colorStep warn error (scanFrom warn error ColorGreen before) d) with ColorMagenta.
  - now apply scan_missing_stays.
  - unfold colorStep. now rewrite (sentinel_not_above warn d Hw Hd), Hd.
Qed.

Lemma scan_ends_error (before after : list float) (d : float) :
  (exists x, In x before /\ escalates warn error x = true) ->
  (error <? d)%float = true ->
  (d =? nullValue)%float = false ->
  (forall x, In x after -> (x =? nullValue)%float = false) ->
  scanFrom warn error ColorGreen (before ++ d :: after) = ColorRed.
Proof.
  intros [x [Hx Hesc]] He Hd Hafter. rewrite scan_split.
  replace (colorStep warn error (scanFrom warn error ColorGreen before) d) with ColorRed.
  - now apply scan_error_stays.
  - unfold colorStep. rewrite Hd, He.
    destruct (Color_eqb (scanFrom warn error ColorGreen before) ColorGreen) eqn:Hc.
    + assert (Hg : scanFrom warn error ColorGreen before = ColorGreen)
        by (destruct (scanFrom warn error ColorGreen before); now try discriminate Hc).
      apply scan_green in Hg. destruct Hg as [_ Hall].
      rewrite (Hall x Hx) in Hesc. discriminate Hesc.
    + now rewrite andb_false_r.
Qed.

End Scan.

(** C2, as the specification has it, fails: the scan of
    [5, SENTINEL, 50] with [warn = 10] and [error = 40] does not end on
    the colour of missing data. *)
Lemma missing_then_error_not_magenta :
  lineColor Fixture.cpu [5; nullValue; 50]%float <> ColorMagenta.
Proof. vm_compute. discriminate. Qed.

(** C2, amended. For the aligned series [5, SENTINEL, 50] with
    [warn = 10] and [error = 40] the line colour the scan produces is the
    colour of the error classification (red): 5 is below both
    thresholds, the sentinel turns the line to missing, and the point
    above [error] scanned after it overwrites that. *)
Theorem missing_then_error_is_red (title query prom unit : string) :
  lineColor {| DsTitle := title; DsQuery := query; DsProm := prom;
               DsUnit := unit; DsWarn := 10; DsError := 40 |}
    [5; nullValue; 50]%float
  = ColorRed.
Proof. reflexivity. Qed.

(** The scan of that series, one point at a time. *)
Example missing_then_error_steps :
  colorStep 10 40 ColorGreen 5 = ColorGreen
  /\ colorStep 10 40 ColorGreen nullValue = ColorMagenta
  /\ colorStep 10 40 ColorMagenta 50 = ColorRed.
Proof. repeat split. Qed.

(** C3, as the specification has it, fails: a point above [error]
    scanned after a sentinel leaves the line on the error colour, though
    missing is the strongest classification of the window. *)
Lemma line_color_not_strongest :
  lineColor Fixture.cpu [nullValue; 50]%float
  <> colorOf (strongest (DsWarn Fixture.cpu) (DsError Fixture.cpu)
                [nullValue; 50]%float).
Proof. vm_compute. discriminate. Qed.

(** C3, amended. With [warn > 0], the colour of the line after the scan
    is: neutral exactly when no point is the sentinel, above [warn] or
    above [error]; warn when some point is above [warn] and none is the
    sentinel or above [error]; missing when a sentinel is followed by no
    point above [error]; error when a point above [error] that is not the
    sentinel comes after a point that already moved the line and is
    followed by no sentinel.  Of missing and error the one scanned last
    stays; warn replaces neither. *)
Theorem lineColor_scan (ds : Datasource) (r0 : list float) :
  (0 <? DsWarn ds)%float = true ->
  (lineColor ds r0 = ColorGreen <->
     forall d, In d r0 -> escalates (DsWarn ds) (DsError ds) d = false)
  /\ ((forall d, In d r0 ->
         (d =? nullValue)%float = false /\ (DsError ds <? d)%float = false) ->
      (exists d, In d r0 /\ (DsWarn ds <? d)%float = true) ->
      lineColor ds r0 = ColorYellow)
  /\ (forall before d after,
        r0 = before ++ d :: after ->
        (d =? nullValue)%float = true ->
        (forall x, In x after -> (DsError ds <? x)%float = false) ->
        lineColor ds r0 = ColorMagenta)
  /\ (forall before d after,
        r0 = before ++ d :: after ->
        (exists x, In x before /\ escalates (DsWarn ds) (DsError ds) x = true) ->
        (DsError ds <? d)%float = true ->
        (d =? nullValue)%float = false ->
        (forall x, In x after -> (x =? nullValue)%float = false) ->
        lineColor ds r0 = ColorRed).
Proof.
  intros Hw. unfold lineColor, scanColors. rewrite Hw.
  repeat split.
  - intros H. now apply scan_green in H.
  - intros H. apply scan_green. now split.
  - apply scan_warn_only.
  - intros before d after -> Hd Hafter. now apply scan_ends_missing.
  - intros before d after -> Hbefore He Hd Hafter. now apply scan_ends_error.
Qed.

Lemma lineColor_scan_witness :
  (0 <? DsWarn Fixture.cpu)%float = true
  /\ lineColor Fixture.cpu [20; nullValue; 50; 30]%float = ColorRed.
Proof.
  split; [reflexivity |].
  apply (proj2 (proj2 (proj2 (lineColor_scan Fixture.cpu
                                [20; nullValue; 50; 30]%float eq_refl)))
           [20; nullValue]%float 50%float [30]%float).
  - reflexivity.
  - exists 20%float. split; [now left | reflexivity].
  - reflexivity.
  - reflexivity.
  - intros x [<- | []]. reflexivity.
Defined.

(** A single point above both thresholds, met while the line is still
    neutral, takes the first branch of the scan. *)
Example first_point_above_error :
  lineColor Fixture.cpu [50]%float = ColorYellow
  /\ lineColor Fixture.cpu [50; 50]%float = ColorRed.
Proof. split; reflexivity. Qed.

End ColorFacts.

(** ** The layout *)

Module LayoutFacts.

Import Ui Dash Spec.

Ltac guards w h :=
  unfold guard;
  destruct ((w =? 240) && (h =? 30)), ((131 <=? w) && (30 <=? h)),
    ((68 <=? w) && (20 <=? h)), ((40 <=? w) && (16 <=? h)).

Lemma selected_breakpoint (w h : Z) (r : Breakpoint) :
  selected r w h = true <-> r = breakpoint w h.
Proof.
  unfold selected, breakpoint.
  destruct r; simpl; guards w h; simpl; split; congruence.
Qed.

Lemma resizeUi_outcome (w h : Z) (s : State) :
  outcomeOf (resizeUi (w, h) s) = Some (breakpoint w h).
Proof.
  unfold resizeUi, breakpoint. simpl fst. simpl snd.
  guards w h; reflexivity.
Qed.

Lemma resizeUi_supported (w h : Z) (s s' : State) :
  breakpoint w h <> Unsupported ->
  layoutOf (resizeUi (w, h) s) = layoutOf (resizeUi (w, h) s').
Proof.
  unfold resizeUi, breakpoint. simpl fst. simpl snd.
  guards w h; intros H; try reflexivity; now elim H.
Qed.

Lemma resizeUi_unsupported (w h : Z) (s : State) :
  breakpoint w h = Unsupported ->
  fontClock (resizeUi (w, h) s) = ""%string
  /\ pClock (resizeUi (w, h) s) = advisory w h
  /\ screen (resizeUi (w, h) s)
     = screen s ++ [Clear; Render [DrawParagraph PClock (advisory w h)]].
Proof.
  unfold resizeUi, breakpoint. simpl fst. simpl snd.
  guards w h; intros H; try discriminate H. repeat split.
Qed.

(** With no clock font and nothing to refresh, a run of the sync job
    draws nothing and changes nothing. *)
Lemma syncTerminal_suppressed (h : Host) (cfg : Config) (inp : Input) (s : State) :
  fontClock s = ""%string -> refreshUi s = false ->
  syncTerminal h cfg inp s = Returned s.
Proof.
  intros Hf Hr. unfold syncTerminal. now rewrite Hr, Hf.
Qed.

(** C4. The layout is a total function of the terminal's width and
    height: exactly one of the five breakpoint outcomes is selected, the
    first whose condition holds (240x30 takes the first rule, not the
    second); the layout and the fonts chosen depend on nothing else, so the
    same dimensions give the same choices whatever the state before; and
    dimensions that match no sizing rule give the unsupported state, in
    which the advisory message is all that is drawn: the sync job that
    resized draws nothing more, and every later run draws nothing until
    the layout is refreshed again. *)
Theorem layout_pure_total (h : Host) (cfg : Config) (inp later : Input)
    (s s' : State) :
  let w := fst (terminal inp) in
  let ht := snd (terminal inp) in
  let laid := resizeUi (terminal inp) s in
  (forall r, selected r w ht = true <-> r = breakpoint w ht)
  /\ breakpoint 240 30 = Panel
  /\ outcomeOf laid = Some (breakpoint w ht)
  /\ (breakpoint w ht <> Unsupported ->
      layoutOf laid = layoutOf (resizeUi (terminal inp) s'))
  /\ (breakpoint w ht = Unsupported ->
      fontClock laid = ""%string
      /\ pClock laid = advisory w ht
      /\ pClock (resizeUi (terminal inp) s') = advisory w ht
      /\ drawnSince s laid = [Clear; Render [DrawParagraph PClock (advisory w ht)]]
      /\ (refreshUi s = true ->
          syncTerminal h cfg inp s = Returned (setRefreshUi false laid))
      /\ syncTerminal h cfg later (setRefreshUi false laid)
         = Returned (setRefreshUi false laid)).
Proof.
  destruct inp as [[w ht] now world]. simpl.
  split; [intros r; apply selected_breakpoint |].
  split; [reflexivity |].
  split; [apply resizeUi_outcome |].
  split; [apply resizeUi_supported |].
  intros Hu.
  destruct (resizeUi_unsupported w ht s Hu) as (Hfont & Hclock & Hscreen).
  destruct (resizeUi_unsupported w ht s' Hu) as (_ & Hclock' & _).
  repeat split; auto.
  - unfold drawnSince. rewrite Hscreen. apply ListFacts.skipn_length_app.
  - intros Hr. unfold syncTerminal. cbn [terminal]. rewrite Hr.
    change (fontClock (setRefreshUi false (resizeUi (w, ht) s)))
      with (fontClock (resizeUi (w, ht) s)).
    now rewrite Hfont.
  - apply syncTerminal_suppressed; [exact Hfont | reflexivity].
Qed.

Lemma layout_pure_total_witness :
  breakpoint 20 10 = Unsupported
  /\ syncTerminal Fixture.plain Fixture.three (Fixture.tick (20, 10) None) initial
     = Returned (setRefreshUi false (resizeUi (20, 10) initial)).
Proof.
  split; [reflexivity |].
  apply (proj2 (proj2 (proj2 (proj2
           (layout_pure_total Fixture.plain Fixture.three
              (Fixture.tick (20, 10) None) (Fixture.tick (20, 10) None)
              initial initial))))); reflexivity.
Defined.

(** The five outcomes, run. *)
Example breakpoints :
  map (fun d => outcomeOf (resizeUi d initial))
      [(240, 30); (241, 30); (240, 31); (131, 30); (130, 30); (68, 20);
       (67, 20); (40, 16); (40, 15); (0, 0)]
  = map Some [Panel; Wide; Wide; Wide; Medium; Medium; Compact; Compact;
              Unsupported; Unsupported].
Proof. reflexivity. Qed.

Example unsupported_screen :
  screen (resizeUi (20, 10) initial)
  = [Clear;
     Render [DrawParagraph PClock
       {| pRect := mkRect (-1) (-1) 21 11;
          Text := "[Unsupported terminal size of 20 x 10" ++ nl
                  ++ "Resize or (q)uit](fg:red)" |}]].
Proof. reflexivity. Qed.

End LayoutFacts.

(** ** The cursor *)

Module CursorFacts.

Import Ui Dash Spec GoIntFacts.

Lemma resizeUi_count (dims : Z * Z) (s : State) :
  syncPromCount (resizeUi dims s) = syncPromCount s.
Proof.
  unfold resizeUi.
  destruct ((fst dims =? 240) && (snd dims =? 30)),
    ((131 <=? fst dims) && (30 <=? snd dims)),
    ((68 <=? fst dims) && (20 <=? snd dims)),
    ((40 <=? fst dims) && (16 <=? snd dims)); reflexivity.
Qed.

Lemma syncClock_count (h : Host) (cfg : Config) (now : nat -> GoTime.Time)
    (s s' : State) :
  syncClock h cfg now s = Returned s' -> syncPromCount s' = syncPromCount s.
Proof.
  unfold syncClock.
  destruct (if flagTest cfg then "2359"%string
            else GoTime.format1504 (timezone cfg) (now 0%nat))
    as [| a [| b [| c [| d rest]]]]; try discriminate.
  intros H. injection H as <-. reflexivity.
Qed.

(** A run of [syncProm] that returns has moved the counter by one. *)
Lemma syncProm_count (h : Host) (cfg : Config) (w : Prom.World) (s s' : State) :
  syncProm h cfg w s = Returned s' ->
  syncPromCount s' = GoInt.add (syncPromCount s) 1.
Proof.
  unfold syncProm.
  destruct (datasourceCount cfg =? 0); [discriminate |].
  destruct (index (dsConfig cfg) (sourceIndex cfg s)) as [ds | |]; try discriminate.
  simpl.
  destruct (Prom.prometheusQueryRange w (DsProm ds) (DsQuery ds)
              (GoInt.sub (width s) 8) 60 nullValue (timezone cfg))
    as [[r0 l0] | |]; try discriminate.
  simpl. intros H. injection H as <-.
  destruct (0 <? Z.of_nat (List.length r0)), (0 <? len (fontLabel s)); reflexivity.
Qed.

Lemma syncTerminal_count (h : Host) (cfg : Config) (inp : Input) (s s' : State) :
  syncTerminal h cfg inp s = Returned s' ->
  syncPromCount s' = syncPromCount s
  \/ syncPromCount s' = GoInt.add (syncPromCount s) 1.
Proof.
  unfold syncTerminal.
  set (s1 := if refreshUi s then setRefreshUi false (resizeUi (terminal inp) s) else s).
  assert (H1 : syncPromCount s1 = syncPromCount s).
  { unfold s1. destruct (refreshUi s); [apply resizeUi_count | reflexivity]. }
  destruct (0 <? len (fontClock s1)).
  - destruct (syncClock h cfg (wallClock inp) s1) as [s2 | |] eqn:Hc; try discriminate.
    simpl. intros Hp. right.
    rewrite (syncProm_count _ _ _ _ _ Hp), (syncClock_count _ _ _ _ _ Hc).
    now rewrite H1.
  - intros H. injection H as <-. now left.
Qed.

(** The quick jumps set the counter to a digit. *)
Lemma quick_jump_digit (id : string) :
  oneOf id ["`"; "1"; "2"; "3"; "4"; "5"; "6"; "7"; "8"; "9"; "0"]%string = true ->
  0 <= match Atoi id with Some i => i | None => 0 end <= 9.
Proof.
  unfold oneOf. intros H. apply existsb_exists in H.
  destruct H as (x & Hin & Heq). apply String.eqb_eq in Heq. subst x.
  simpl in Hin.
  repeat (destruct Hin as [<- | Hin]; [vm_compute; split; discriminate |]).
  destruct Hin.
Qed.

(** What an event does to the counter. *)
Lemma onEvent_count (cfg : Config) (id : string) (s s' : State) (r : bool) :
  onEvent cfg id s = Continue s' r ->
  0 <= syncPromCount s' <= 9
  \/ syncPromCount s' = syncPromCount s
  \/ syncPromCount s'
     = GoInt.add (syncPromCount s) (GoInt.sub (datasourceCount cfg) 2)
  \/ syncPromCount s'
     = GoInt.add (syncPromCount s) (GoInt.sub (datasourceCount cfg) 1).
Proof.
  unfold onEvent.
  destruct (oneOf id ["q"; "<C-c>"]%string); [discriminate |].
  destruct (oneOf id ["`"; "1"; "2"; "3"; "4"; "5"; "6"; "7"; "8"; "9"; "0"]%string)
    eqn:Hd.
  { intros H. injection H as <- _. left. now apply quick_jump_digit. }
  destruct (oneOf id ["<Left>"; "<Down>"]%string).
  { intros H. injection H as <- _. right. right. now left. }
  destruct (oneOf id ["<Right>"; "<Up>"]%string).
  { intros H. injection H as <- _. right. now left. }
  destruct (oneOf id ["<Space>"]%string).
  { intros H. injection H as <- _. right. right. now right. }
  destruct (oneOf id ["<Resize>"]%string).
  { intros H. injection H as <- _. right. right. now right. }
  intros H. injection H as <- _. right. now left.
Qed.

Lemma counted_step (cfg : Config) (st : Step) (h : Host) (s s' : State) (k : Z) :
  1 <= datasourceCount cfg ->
  0 <= k ->
  9 + datasourceCount cfg * (k + 1) < 2 ^ 63 ->
  counted (datasourceCount cfg) k (syncPromCount s) ->
  step h cfg st s = Returned (Some s') ->
  counted (datasourceCount cfg) (k + 1) (syncPromCount s').
Proof.
  set (n := datasourceCount cfg). unfold counted.
  intros Hn Hk Hb [Hc Hs] Hstep.
  assert (Hnk : 0 <= n * k) by (apply Z.mul_nonneg_nonneg; lia).
  assert (Hexp : n * (k + 1) = n * k + n) by ring.
  assert (Hmoves :
    0 <= syncPromCount s' <= 9
    \/ syncPromCount s' = syncPromCount s
    \/ syncPromCount s' = syncPromCount s + (n - 2)
    \/ syncPromCount s' = syncPromCount s + (n - 1)
    \/ syncPromCount s' = syncPromCount s + 1).
  { destruct st as [id | inp |]; simpl in Hstep.
    - destruct (onEvent cfg id s) as [| s1 r] eqn:He; [discriminate |].
      injection Hstep as <-.
      destruct (onEvent_count _ _ _ _ _ He) as [H | [H | [H | H]]]; auto;
        rewrite H; unfold GoInt.add, GoInt.sub; fold n;
        rewrite !wrap_small; unfold GoInt.inRange; auto; try lia;
        rewrite !wrap_small; unfold GoInt.inRange; lia.
    - destruct (syncTerminal h cfg inp s) as [s1 | |] eqn:Ht; try discriminate.
      simpl in Hstep. injection Hstep as <-.
      destruct (syncTerminal_count _ _ _ _ _ Ht) as [H | H]; auto.
      rewrite H. unfold GoInt.add. rewrite wrap_small; unfold GoInt.inRange; auto 6; lia.
    - injection Hstep as <-. auto. }
  lia.
Qed.

Lemma counted_run (h : Host) (cfg : Config) (steps : list Step) (s s' : State) (k : Z) :
  1 <= datasourceCount cfg ->
  0 <= k ->
  9 + datasourceCount cfg * (k + Z.of_nat (List.length steps)) < 2 ^ 63 ->
  counted (datasourceCount cfg) k (syncPromCount s) ->
  run h cfg steps s = Returned (Some s') ->
  counted (datasourceCount cfg) (k + Z.of_nat (List.length steps)) (syncPromCount s').
Proof.
  intros Hn. revert s k.
  induction steps as [| st steps IH]; intros s k Hk Hb Hc Hrun.
  - simpl in *. injection Hrun as <-. now rewrite Z.add_0_r.
  - simpl in Hrun.
    destruct (step h cfg st s) as [[s1 |] | |] eqn:Hstep; try discriminate.
    simpl in Hrun.
    replace (k + Z.of_nat (List.length (st :: steps)))
      with ((k + 1) + Z.of_nat (List.length steps)) in * by (simpl List.length; lia).
    apply (IH s1); auto; try lia.
    apply (counted_step cfg st h s); auto.
    assert (0 <= datasourceCount cfg * Z.of_nat (List.length steps))
      by (apply Z.mul_nonneg_nonneg; lia).
    lia.
Qed.

(** A counter that is negative only with a single source gives an index
    of the list. *)
Lemma sourceIndex_in_range (cfg : Config) (s : State) :
  1 <= datasourceCount cfg ->
  - 2 ^ 63 <= syncPromCount s < 2 ^ 63 ->
  datasourceCount cfg = 1 \/ 0 <= syncPromCount s ->
  0 <= sourceIndex cfg s < datasourceCount cfg.
Proof.
  intros Hn Hr Hs. unfold sourceIndex, GoInt.rem.
  destruct Hs as [H1 | Hpos].
  - rewrite H1, Z.rem_1_r. now vm_compute.
  - rewrite Z.rem_mod_nonneg by lia.
    pose proof (Z.mod_pos_bound (syncPromCount s) (datasourceCount cfg) ltac:(lia)).
    pose proof (Z.mod_le (syncPromCount s) (datasourceCount cfg) ltac:(lia) ltac:(lia)).
    rewrite wrap_small; unfold GoInt.inRange; lia.
Qed.

Lemma index_in_range (l : list Datasource) (i : Z) :
  0 <= i < Z.of_nat (List.length l) -> exists ds, index l i = Returned ds.
Proof.
  intros Hi. unfold index.
  destruct (Z.ltb_spec i 0) as [Hneg | _]; [lia |].
  destruct (nth_error l (Z.to_nat i)) as [ds |] eqn:Hnth; [now exists ds |].
  apply nth_error_None in Hnth. lia.
Qed.

Lemma digit_cases (d : Z) :
  0 <= d <= 9 ->
  d = 0 \/ d = 1 \/ d = 2 \/ d = 3 \/ d = 4 \/ d = 5 \/ d = 6 \/ d = 7
  \/ d = 8 \/ d = 9.
Proof. lia. Qed.

Lemma onEvent_digit (cfg : Config) (s : State) (d : Z) :
  0 <= d <= 9 ->
  onEvent cfg (itoa d) s = Continue (setSyncPromCount d s) true.
Proof.
  intros Hd.
  destruct (digit_cases d Hd) as [-> | [-> | [-> | [-> | [-> | [-> | [-> | [-> | [-> | ->]]]]]]]]];
    reflexivity.
Qed.

Lemma onEvent_previous (cfg : Config) (s : State) (id : string) :
  id = "<Left>"%string \/ id = "<Down>"%string ->
  onEvent cfg id s
  = Continue (setSyncPromCount
                (GoInt.add (syncPromCount s) (GoInt.sub (datasourceCount cfg) 2)) s)
      true.
Proof. intros [-> | ->]; reflexivity. Qed.

Lemma onEvent_next (cfg : Config) (s : State) (id : string) :
  id = "<Right>"%string \/ id = "<Up>"%string ->
  onEvent cfg id s = Continue s true.
Proof. intros [-> | ->]; reflexivity. Qed.

Lemma loadConfig_sources (file : ConfigFile) (tz : option GoTime.Location)
    (test : bool) (cfg : Config) :
  loadConfig file tz test = Returned cfg -> 1 <= datasourceCount cfg.
Proof.
  unfold loadConfig, datasourceCount.
  destruct file as [| | ds]; try discriminate.
  destruct (Z.eqb_spec (Z.of_nat (List.length ds)) 0) as [| Hne]; [discriminate |].
  destruct tz as [loc |]; [| discriminate].
  intros H. injection H as <-. simpl. lia.
Qed.

(** The alignment loop panics on the empty matrix only. *)
Lemma align_fold_panic (m : list Prom.SampleStream) (timeNow intervalSeconds : Z)
    (nilValue : float) (tz : GoTime.Location) (turns : list Z)
    (acc : outcome (list float * list string)) (msg : string) :
  fold_left (Prom.alignStep m timeNow intervalSeconds nilValue tz) turns acc
  = Panicked msg ->
  acc = Panicked msg \/ msg = "index out of range: result.(model.Matrix)"%string.
Proof.
  revert acc. induction turns as [| i turns IH]; intros acc H; simpl in H.
  - now left.
  - destruct (IH _ H) as [Hstep | Hmsg]; [| now right].
    unfold Prom.alignStep in Hstep.
    destruct acc as [vl | |]; simpl in Hstep; try discriminate Hstep.
    + destruct m; [| discriminate Hstep]. injection Hstep as <-. now right.
    + now left.
Qed.

Lemma prometheusQueryRange_panic (w : Prom.World) (promFlag query : string)
    (length intervalSeconds : Z) (nilValue : float) (tz : GoTime.Location)
    (msg : string) :
  Prom.prometheusQueryRange w promFlag query length intervalSeconds nilValue tz
  = Panicked msg ->
  msg = "index out of range: result.(model.Matrix)"%string.
Proof.
  unfold Prom.prometheusQueryRange.
  destruct (negb (Prom.clientOk w promFlag)); [discriminate |].
  destruct (Prom.queryRange w promFlag query _) as [[m | | | |] |]; try discriminate.
  intros H. apply align_fold_panic in H. destruct H as [H | H]; [discriminate H | exact H].
Qed.

(** With the index in range, [syncProm] does not panic on [dsConfig[i]]. *)
Lemma syncProm_panic (h : Host) (cfg : Config) (w : Prom.World) (s : State)
    (msg : string) :
  0 <= sourceIndex cfg s < datasourceCount cfg ->
  syncProm h cfg w s = Panicked msg ->
  msg <> "index out of range: dsConfig"%string.
Proof.
  intros Hi. unfold syncProm.
  destruct (Z.eqb_spec (datasourceCount cfg) 0) as [H0 | _]; [lia |].
  destruct (index_in_range (dsConfig cfg) (sourceIndex cfg s) Hi) as [ds ->].
  simpl bind.
  destruct (Prom.prometheusQueryRange w (DsProm ds) (DsQuery ds)
              (GoInt.sub (width s) 8) 60 nullValue (timezone cfg))
    as [rl | m | m] eqn:Hq; simpl bind; try discriminate.
  intros H. injection H as <-.
  apply prometheusQueryRange_panic in Hq. rewrite Hq. discriminate.
Qed.

Lemma syncTerminal_panic (h : Host) (cfg : Config) (inp : Input) (s : State)
    (msg : string) :
  0 <= sourceIndex cfg s < datasourceCount cfg ->
  syncTerminal h cfg inp s = Panicked msg ->
  msg <> "index out of range: dsConfig"%string.
Proof.
  intros Hi. unfold syncTerminal.
  set (s1 := if refreshUi s then setRefreshUi false (resizeUi (terminal inp) s) else s).
  assert (H1 : syncPromCount s1 = syncPromCount s).
  { unfold s1. destruct (refreshUi s); [apply resizeUi_count | reflexivity]. }
  destruct (0 <? len (fontClock s1)); [| discriminate].
  destruct (syncClock h cfg (wallClock inp) s1) as [s2 | m | m] eqn:Hc; simpl bind;
    try discriminate.
  - apply syncProm_panic. unfold sourceIndex in *.
    now rewrite (syncClock_count _ _ _ _ _ Hc), H1.
  - intros H. injection H as <-. unfold syncClock in Hc.
    destruct (if flagTest cfg then "2359"%string
              else GoTime.format1504 (timezone cfg) (wallClock inp 0%nat))
      as [| a [| b [| c [| d rest]]]]; try discriminate Hc;
      injection Hc as <-; discriminate.
Qed.

Lemma run_panic (h : Host) (cfg : Config) (steps : list Step) (s : State)
    (k : Z) (msg : string) :
  1 <= datasourceCount cfg ->
  0 <= k ->
  9 + datasourceCount cfg * (k + Z.of_nat (List.length steps)) < 2 ^ 63 ->
  counted (datasourceCount cfg) k (syncPromCount s) ->
  run h cfg steps s = Panicked msg ->
  msg <> "index out of range: dsConfig"%string.
Proof.
  intros Hn. revert s k.
  induction steps as [| st steps IH]; intros s k Hk Hb Hc Hrun; [discriminate Hrun |].
  simpl in Hrun.
  assert (Hsteps : 0 <= datasourceCount cfg * Z.of_nat (List.length steps))
    by (apply Z.mul_nonneg_nonneg; lia).
  assert (Hexp : datasourceCount cfg * (k + Z.of_nat (List.length (st :: steps)))
                 = datasourceCount cfg * (k + 1)
                   + datasourceCount cfg * Z.of_nat (List.length steps))
    by (simpl List.length; rewrite Nat2Z.inj_succ; ring).
  destruct (step h cfg st s) as [[s1 |] | m | m] eqn:Hstep; simpl in Hrun;
    try discriminate Hrun.
  - apply (IH s1 (k + 1)); auto; try lia.
    apply (counted_step cfg st h s); auto. lia.
  - injection Hrun as <-.
    destruct st as [id | inp |]; simpl in Hstep.
    + destruct (onEvent cfg id s); discriminate Hstep.
    + destruct (syncTerminal h cfg inp s) as [s1 | m' | m'] eqn:Ht;
        simpl in Hstep; try discriminate Hstep.
      injection Hstep as <-.
      apply (syncTerminal_panic h cfg inp s); auto.
      destruct Hc as [Hc Hs].
      assert (0 <= datasourceCount cfg * k) by (apply Z.mul_nonneg_nonneg; lia).
      assert (k <= datasourceCount cfg * k) by nia.
      assert (datasourceCount cfg * (k + 1) = datasourceCount cfg * k + datasourceCount cfg)
        by ring.
      apply sourceIndex_in_range; auto; lia.
    + discriminate Hstep.
Qed.

(** C10. After [loadConfig] has returned (so with at least one
    datasource), for every sequence of keyboard events and job runs from
    the start of [main] (short enough for the counter to stay an [int]),
    the index [syncPromCount % datasourceCount] stays within
    [0, datasourceCount): no run panics on [dsConfig[i]], and in every
    state reached the index is one of the datasource list; there, a digit
    key [d] at or past the number of sources selects source [d mod N], and
    with a single source the "previous" key, which adds -1 to the counter,
    still gives index 0. *)
Theorem source_index_in_bounds (h : Host) (file : ConfigFile)
    (tz : option GoTime.Location) (test : bool) (cfg : Config)
    (steps : list Step) :
  loadConfig file tz test = Returned cfg ->
  9 + datasourceCount cfg * Z.of_nat (List.length steps) < 2 ^ 63 ->
  run h cfg steps initial <> Panicked "index out of range: dsConfig"
  /\ forall s,
       run h cfg steps initial = Returned (Some s) ->
       (0 <= sourceIndex cfg s < datasourceCount cfg
        /\ exists ds, index (dsConfig cfg) (sourceIndex cfg s) = Returned ds)
       /\ (forall d, 0 <= d <= 9 ->
             exists s', onEvent cfg (itoa d) s = Continue s' true
                        /\ sourceIndex cfg s' = d mod datasourceCount cfg)
       /\ (datasourceCount cfg = 1 ->
           forall id, id = "<Left>"%string \/ id = "<Down>"%string ->
             exists s', onEvent cfg id s = Continue s' true
                        /\ syncPromCount s' = GoInt.add (syncPromCount s) (-1)
                        /\ sourceIndex cfg s' = 0).
Proof.
  intros Hload Hb.
  pose proof (loadConfig_sources _ _ _ _ Hload) as Hn.
  assert (H0 : counted (datasourceCount cfg) 0 (syncPromCount initial)).
  { unfold counted. change (syncPromCount initial) with 0. lia. }
  split.
  { intros Hrun.
    now apply (run_panic h cfg steps initial 0 _ Hn (Z.le_refl 0) Hb H0 Hrun). }
  intros s Hrun.
  assert (Hc : counted (datasourceCount cfg) (0 + Z.of_nat (List.length steps))
                 (syncPromCount s))
    by (apply (counted_run h cfg steps initial); auto; lia).
  destruct Hc as [Hc Hs]. rewrite Z.add_0_l in Hc.
  assert (Hlen : Z.of_nat (List.length steps)
                 <= datasourceCount cfg * Z.of_nat (List.length steps)) by nia.
  assert (Hidx : 0 <= sourceIndex cfg s < datasourceCount cfg)
    by (apply sourceIndex_in_range; auto; lia).
  repeat split; try apply Hidx.
  - apply index_in_range. exact Hidx.
  - intros d Hd. exists (setSyncPromCount d s).
    split; [now apply onEvent_digit |].
    unfold sourceIndex, GoInt.rem. simpl.
    rewrite Z.rem_mod_nonneg by lia.
    pose proof (Z.mod_pos_bound d (datasourceCount cfg) ltac:(lia)).
    pose proof (Z.mod_le d (datasourceCount cfg) ltac:(lia) ltac:(lia)).
    rewrite wrap_small; unfold GoInt.inRange; lia.
  - intros H1 id Hid. eexists. split; [now apply onEvent_previous |].
    rewrite H1. split; [reflexivity |].
    unfold sourceIndex, GoInt.rem. rewrite H1, Z.rem_1_r. reflexivity.
Qed.

Lemma source_index_in_bounds_witness :
  run Fixture.plain Fixture.three
    [SyncJob (Fixture.tick (80, 24) None); UiEvent "7";
     SyncJob (Fixture.tick (80, 24) None); UiEvent "<Left>"] initial
  <> Panicked "index out of range: dsConfig".
Proof.
  apply (source_index_in_bounds Fixture.plain
           (Decoded [Fixture.cpu; Fixture.mem; Fixture.disk])
           (Some (GoTime.fixedZone 28800)) false Fixture.three
           [SyncJob (Fixture.tick (80, 24) None); UiEvent "7";
            SyncJob (Fixture.tick (80, 24) None); UiEvent "<Left>"]).
  - reflexivity.
  - vm_compute. reflexivity.
Defined.

(** That run: the first source is drawn, "7" jumps to the second (7 mod 3),
    and "previous" goes back from it to the first. *)
Example run_of_four_steps :
  match run Fixture.plain Fixture.three
          [SyncJob (Fixture.tick (80, 24) None); UiEvent "7";
           SyncJob (Fixture.tick (80, 24) None); UiEvent "<Left>"] initial with
  | Returned (Some s) => Some (syncPromCount s, sourceIndex Fixture.three s)
  | _ => None
  end = Some (9, 0).
Proof. reflexivity. Qed.

(** Ten sources are not needed for the digit keys: with three, "7"
    selects the second. *)
Example digit_past_the_sources :
  sourceIndex Fixture.three (setSyncPromCount 7 initial) = 1.
Proof. reflexivity. Qed.

(** C5. The cursor wraps around modulo the number of sources [N]: once
    the source of index [current] is rendered, a "previous" event (left or
    down) makes the index of the next render [(current - 1 + N) mod N], so
    that previous from 0 gives [N-1], and a "next" event (right or up)
    makes it [(current + 1) mod N], so that next from [N-1] gives 0.  The
    counter is taken within the bounds of [int] and, with more than one
    source, not negative, as it is on every run of [main]. *)
Theorem cursor_wraps (h : Host) (cfg : Config) (w : Prom.World)
    (s rendered : State) (id : string) :
  let N := datasourceCount cfg in
  let current := sourceIndex cfg s in
  1 <= N ->
  - 2 ^ 63 <= syncPromCount s ->
  syncPromCount s + N < 2 ^ 63 ->
  0 <= syncPromCount s \/ N = 1 ->
  syncProm h cfg w s = Returned rendered ->
  (id = "<Left>"%string \/ id = "<Down>"%string ->
   exists next,
     onEvent cfg id rendered = Continue next true
     /\ sourceIndex cfg next = (current - 1 + N) mod N
     /\ (current = 0 -> sourceIndex cfg next = N - 1))
  /\ (id = "<Right>"%string \/ id = "<Up>"%string ->
      exists next,
        onEvent cfg id rendered = Continue next true
        /\ sourceIndex cfg next = (current + 1) mod N
        /\ (current = N - 1 -> sourceIndex cfg next = 0)).
Proof.
  intros N current Hn Hlo Hhi Hs Hsync.
  pose proof (syncProm_count _ _ _ _ _ Hsync) as Hcount.
  unfold GoInt.add in Hcount.
  rewrite wrap_small in Hcount by (unfold GoInt.inRange; lia).
  assert (Hcur : current = syncPromCount s mod N).
  { unfold current, sourceIndex, GoInt.rem. fold N.
    destruct Hs as [Hpos | H1].
    - rewrite Z.rem_mod_nonneg by lia.
      pose proof (Z.mod_pos_bound (syncPromCount s) N ltac:(lia)).
      pose proof (Z.mod_le (syncPromCount s) N ltac:(lia) ltac:(lia)).
      rewrite wrap_small; unfold GoInt.inRange; lia.
    - rewrite H1, Z.rem_1_r, Z.mod_1_r. reflexivity. }
  assert (Hidx : forall c, - 2 ^ 63 <= c < 2 ^ 63 -> 0 <= c \/ N = 1 ->
                           GoInt.wrap (Z.rem c N) = c mod N).
  { intros c Hc [Hpos | H1].
    - rewrite Z.rem_mod_nonneg by lia.
      pose proof (Z.mod_pos_bound c N ltac:(lia)).
      pose proof (Z.mod_le c N ltac:(lia) ltac:(lia)).
      rewrite wrap_small; unfold GoInt.inRange; lia.
    - rewrite H1, Z.rem_1_r, Z.mod_1_r. reflexivity. }
  split; intros Hid.
  - eexists. split; [now apply onEvent_previous |].
    unfold sourceIndex. simpl syncPromCount. unfold GoInt.rem. fold N.
    rewrite Hcount. unfold GoInt.add, GoInt.sub.
    rewrite (wrap_small (N - 2)) by (unfold GoInt.inRange; lia).
    rewrite (wrap_small (syncPromCount s + 1 + (N - 2)))
      by (unfold GoInt.inRange; lia).
    rewrite Hidx by lia.
    assert (Heq : (syncPromCount s + 1 + (N - 2)) mod N = (current - 1 + N) mod N).
    { rewrite Hcur.
      replace (syncPromCount s mod N - 1 + N)
        with (syncPromCount s mod N + (N - 1)) by lia.
      rewrite Z.add_mod_idemp_l by lia. f_equal. lia. }
    split; [exact Heq |].
    intros H0. rewrite Heq, H0.
    replace (0 - 1 + N) with (N - 1) by lia.
    destruct (Z.eq_dec N 1) as [-> | Hne]; [reflexivity |].
    apply Z.mod_small. lia.
  - exists rendered. split; [now apply onEvent_next |].
    unfold sourceIndex, GoInt.rem. fold N. rewrite Hcount.
    rewrite Hidx by lia.
    assert (Heq : (syncPromCount s + 1) mod N = (current + 1) mod N).
    { rewrite Hcur. now rewrite Z.add_mod_idemp_l by lia. }
    split; [exact Heq |].
    intros HN. rewrite Heq, HN.
    replace (N - 1 + 1) with N by lia. apply Z.mod_same. lia.
Qed.

Lemma cursor_wraps_witness :
  exists next,
    onEvent Fixture.three "<Left>"
      (Fixture.shown Fixture.three None (Fixture.laid (80, 24)))
    = Continue next true
    /\ sourceIndex Fixture.three next
       = (sourceIndex Fixture.three (Fixture.laid (80, 24)) - 1
          + datasourceCount Fixture.three) mod datasourceCount Fixture.three
    /\ (sourceIndex Fixture.three (Fixture.laid (80, 24)) = 0 ->
        sourceIndex Fixture.three next = datasourceCount Fixture.three - 1).
Proof.
  refine (proj1 (cursor_wraps Fixture.plain Fixture.three (Fixture.answering None)
                   (Fixture.laid (80, 24))
                   (Fixture.shown Fixture.three None (Fixture.laid (80, 24)))
                   "<Left>" _ _ _ _ _) (or_introl eq_refl)).
  - vm_compute. discriminate.
  - vm_compute. discriminate.
  - vm_compute. reflexivity.
  - left. vm_compute. discriminate.
  - reflexivity.
Defined.

(** Three sources, around the ring in both directions. *)
Example previous_from_first :
  match onEvent Fixture.three "<Left>"
          (Fixture.shown Fixture.three None (Fixture.laid (80, 24))) with
  | Continue next _ => sourceIndex Fixture.three next
  | Quit => -1
  end = 2.
Proof. reflexivity. Qed.

Example next_from_last :
  match onEvent Fixture.three "<Right>"
          (Fixture.shown Fixture.three None
             (setSyncPromCount 2 (Fixture.laid (80, 24)))) with
  | Continue next _ => sourceIndex Fixture.three next
  | Quit => -1
  end = 0.
Proof. reflexivity. Qed.

End CursorFacts.

(** ** What [syncProm] draws *)

Module PanelFacts.

Import Ui Dash Spec.

Lemma index_nonempty (l : list Datasource) (i : Z) (ds : Datasource) :
  index l i = Returned ds -> (Z.of_nat (List.length l) =? 0) = false.
Proof.
  unfold index. destruct (i <? 0); [discriminate |].
  destruct l as [| d l]; [now destruct (Z.to_nat i) |].
  intros _. apply Z.eqb_neq. simpl List.length. lia.
Qed.

Lemma len_positive (t : string) : (0 <? len t) = negb (String.eqb t "").
Proof.
  destruct t as [| c t]; [reflexivity |].
  unfold len. simpl String.length. simpl String.eqb.
  apply Z.ltb_lt. lia.
Qed.

(** A failed call gives back the two empty slices. *)
Lemma prometheusQueryRange_error (w : Prom.World) (promFlag query : string)
    (length intervalSeconds : Z) (nilValue : float) (tz : GoTime.Location) :
  Prom.clientOk w promFlag = true ->
  Prom.queryRange w promFlag query
    (Prom.window (GoTime.RoundSecond (Prom.clock w)) length intervalSeconds) = None ->
  Prom.prometheusQueryRange w promFlag query length intervalSeconds nilValue tz
  = Returned ([], []).
Proof.
  intros Hc Hq. unfold Prom.prometheusQueryRange. rewrite Hc. simpl. now rewrite Hq.
Qed.

(** C6, as the specification has it, fails: on the 240x30 layout, the
    one with a label font, nothing drawn for a failed query shows the
    endpoint. *)
Lemma label_layout_hides_endpoint : ~ error_panel_shows_endpoint.
Proof.
  intros H.
  destruct (H Fixture.plain Fixture.one (Fixture.answering None)
              (Fixture.laid (240, 30))
              (Fixture.shown Fixture.one None (Fixture.laid (240, 30)))
              Fixture.cpu eq_refl eq_refl eq_refl eq_refl)
    as [_ (c & Hin & Hshows)].
  vm_compute in Hin.
  destruct Hin as [<- | [<- | []]]; vm_compute in Hshows; discriminate Hshows.
Qed.

Example label_layout_error_panel :
  drawnSince (Fixture.laid (240, 30))
    (Fixture.shown Fixture.one None (Fixture.laid (240, 30)))
  = [Render [DrawParagraph PMetric
               {| pRect := mkRect 0 4 100 17;
                  Text := "[cpu](fg:red)" ++ nl ++ "[PROM ERROR](fg:red)" |}];
     Render [DrawPlot
               {| cRect := mkRect 0 16 241 31; Title := ""; Data := [];
                  DataLabels := []; LabelAxesX := false;
                  LineColors0 := ColorRed |}]].
Proof. reflexivity. Qed.

(** C6, amended. When the range query itself fails, [prometheusQueryRange]
    returns an empty series and the process goes on: [syncProm] returns,
    the counter moved to the next source, having drawn the error panel of
    the source.  Where the layout has no label font, the panel is the
    chart under the title "<title> PROM ERROR <endpoint>"; where it has
    one (240x30), the panel is the metric paragraph with the figures of
    the title and of "PROM ERROR" in red, and the chart as it was: the
    endpoint is not drawn. *)
Theorem backend_error_panel (h : Host) (cfg : Config) (w : Prom.World)
    (s : State) (ds : Datasource) :
  index (dsConfig cfg) (sourceIndex cfg s) = Returned ds ->
  Prom.clientOk w (DsProm ds) = true ->
  Prom.queryRange w (DsProm ds) (DsQuery ds)
    (Prom.window (GoTime.RoundSecond (Prom.clock w)) (GoInt.sub (width s) 8) 60)
  = None ->
  Prom.prometheusQueryRange w (DsProm ds) (DsQuery ds) (GoInt.sub (width s) 8) 60
    nullValue (timezone cfg) = Returned ([], [])
  /\ exists s',
       syncProm h cfg w s = Returned s'
       /\ syncPromCount s' = GoInt.add (syncPromCount s) 1
       /\ (fontLabel s = ""%string ->
           drawnSince s s'
           = [Render [DrawPlot
                (cSetTitle (chart0 s)
                   (DsTitle ds ++ " PROM ERROR " ++ DsProm ds))]])
       /\ (fontLabel s <> ""%string ->
           drawnSince s s'
           = [Render [DrawParagraph PMetric
                (pSetText (pMetric s)
                   ("[" ++ join (slicify h (DsTitle ds) (fontLabel s))
                    ++ "](fg:red)" ++ nl
                    ++ "[" ++ join (slicify h "PROM ERROR" (fontLabel s))
                    ++ "](fg:red)"))];
              Render [DrawPlot (chart0 s)]]).
Proof.
  intros Hi Hc Hq.
  pose proof (prometheusQueryRange_error w (DsProm ds) (DsQuery ds)
                (GoInt.sub (width s) 8) 60 nullValue (timezone cfg) Hc Hq) as Hr.
  split; [exact Hr |].
  unfold syncProm, datasourceCount.
  rewrite (index_nonempty _ _ _ Hi), Hi. simpl bind. rewrite Hr. simpl bind.
  cbn [fst snd List.length Z.of_nat Z.ltb Z.compare].
  rewrite len_positive.
  destruct (String.eqb_spec (fontLabel s) "") as [He | Hne]; simpl negb;
    eexists; (split; [reflexivity |]); (split; [reflexivity |]); split; intros Hl;
    try congruence; unfold drawnSince; simpl screen.
  - apply (ListFacts.skipn_length_app (screen s) [_]).
  - rewrite <- app_assoc. apply (ListFacts.skipn_length_app (screen s) [_; _]).
Qed.

Lemma backend_error_panel_witness :
  Prom.prometheusQueryRange (Fixture.answering None) (DsProm Fixture.cpu)
    (DsQuery Fixture.cpu) (GoInt.sub (width (Fixture.laid (80, 24))) 8) 60
    nullValue (timezone Fixture.three) = Returned ([], [])
  /\ exists s',
       syncProm Fixture.plain Fixture.three (Fixture.answering None)
         (Fixture.laid (80, 24)) = Returned s'
       /\ syncPromCount s' = GoInt.add (syncPromCount (Fixture.laid (80, 24))) 1
       /\ (fontLabel (Fixture.laid (80, 24)) = ""%string ->
           drawnSince (Fixture.laid (80, 24)) s'
           = [Render [DrawPlot
                (cSetTitle (chart0 (Fixture.laid (80, 24)))
                   (DsTitle Fixture.cpu ++ " PROM ERROR " ++ DsProm Fixture.cpu))]])
       /\ (fontLabel (Fixture.laid (80, 24)) <> ""%string ->
           drawnSince (Fixture.laid (80, 24)) s'
           = [Render [DrawParagraph PMetric
                (pSetText (pMetric (Fixture.laid (80, 24)))
                   ("[" ++ join (slicify Fixture.plain (DsTitle Fixture.cpu)
                                   (fontLabel (Fixture.laid (80, 24))))
                    ++ "](fg:red)" ++ nl
                    ++ "[" ++ join (slicify Fixture.plain "PROM ERROR"
                                      (fontLabel (Fixture.laid (80, 24))))
                    ++ "](fg:red)"))];
              Render [DrawPlot (chart0 (Fixture.laid (80, 24)))]]).
Proof.
  apply (backend_error_panel Fixture.plain Fixture.three (Fixture.answering None)
           (Fixture.laid (80, 24)) Fixture.cpu); reflexivity.
Defined.

(** What [syncProm] draws when the query succeeds: the chart carries the
    aligned values and the colour of the scan. *)
Lemma syncProm_line_color (h : Host) (cfg : Config) (w : Prom.World)
    (s : State) (ds : Datasource) (r0 : list float) (l0 : list string) :
  index (dsConfig cfg) (sourceIndex cfg s) = Returned ds ->
  Prom.prometheusQueryRange w (DsProm ds) (DsQuery ds) (GoInt.sub (width s) 8) 60
    nullValue (timezone cfg) = Returned (r0, l0) ->
  r0 <> [] ->
  exists s',
    syncProm h cfg w s = Returned s'
    /\ Data (chart0 s') = [r0]
    /\ DataLabels (chart0 s') = l0
    /\ LineColors0 (chart0 s') = lineColor ds r0.
Proof.
  intros Hi Hr Hne.
  unfold syncProm, datasourceCount.
  rewrite (index_nonempty _ _ _ Hi), Hi. simpl bind. rewrite Hr. simpl bind.
  cbn [fst snd].
  destruct r0 as [| d r0]; [congruence |].
  replace (0 <? Z.of_nat (List.length (d :: r0))) with true
    by (symmetry; apply Z.ltb_lt; simpl List.length; lia).
  destruct (0 <? len (fontLabel s)); eexists; split; reflexivity || (repeat split).
Qed.

Example chart_layout_error_panel :
  drawnSince (Fixture.laid (80, 24))
    (Fixture.shown Fixture.three None (Fixture.laid (80, 24)))
  = [Render [DrawPlot
               {| cRect := mkRect 0 11 81 25;
                  Title := "cpu PROM ERROR http://prom:9090"; Data := [];
                  DataLabels := []; LabelAxesX := false;
                  LineColors0 := ColorRed |}]].
Proof. reflexivity. Qed.

End PanelFacts.

(** * Further properties of the code *)

(** ** [rightAlignText] *)

Module TextFacts.

Import Dash Derived GoIntFacts.

Lemma length_append (a b : string) :
  String.length (a ++ b) = (String.length a + String.length b)%nat.
Proof. induction a as [| c a IH]; simpl; auto. Qed.

Lemma len_append (a b : string) : len (a ++ b) = len a + len b.
Proof. unfold len. rewrite length_append. lia. Qed.

Lemma len_nonneg (a : string) : 0 <= len a.
Proof. unfold len. lia. Qed.

Lemma len_spaces (n : Z) : 0 <= n -> len (spaces n) = n.
Proof.
  intros Hn. unfold spaces, len.
  assert (H : forall k, String.length (String.concat "" (repeat " "%string k)) = k).
  { induction k as [| k IH]; [reflexivity |].
    simpl repeat. destruct k as [| k]; [reflexivity |].
    change (String.concat "" (" "%string :: repeat " "%string (S k)))
      with (" " ++ "" ++ String.concat "" (repeat " "%string (S k)))%string.
    rewrite !length_append, IH. reflexivity. }
  rewrite H. lia.
Qed.

Lemma widest_nonneg (text : list string) : 0 <= widest text.
Proof.
  unfold widest. induction text as [| l text IH]; simpl; lia.
Qed.

Lemma widest_bound (text : list string) (l : string) :
  In l text -> len l <= widest text.
Proof.
  unfold widest. induction text as [| x text IH]; simpl; [intros [] |].
  intros [-> | Hin]; [lia |]. specialize (IH Hin). lia.
Qed.

(** The loop of [rightAlignText] computes the longest length. *)
Lemma longest_fold (text : list string) (m : Z) :
  0 <= m ->
  fold_left (fun m l => if m <? len l then len l else m) text m
  = Z.max m (widest text).
Proof.
  revert m. unfold widest.
  induction text as [| l text IH]; intros m Hm; simpl.
  - lia.
  - pose proof (len_nonneg l).
    rewrite IH; destruct (Z.ltb_spec m (len l)); lia.
Qed.

Lemma widest_padded (text : list string) (pad : Z) :
  0 <= pad -> text <> [] ->
  widest (map (fun l => (spaces pad ++ l)%string) text) = pad + widest text.
Proof.
  intros Hp. unfold widest.
  induction text as [| l text IH]; [congruence | intros _].
  simpl. rewrite len_append, len_spaces by assumption.
  destruct text as [| l' text].
  - simpl. pose proof (len_nonneg l). lia.
  - rewrite IH by discriminate. lia.
Qed.

(** The result, as one padding for all the lines. *)
Lemma rightAlignText_map (text : list string) (width : Z) :
  width < 2 ^ 63 ->
  rightAlignText text width
  = map (fun l => (spaces (padding text width) ++ l)%string) text.
Proof.
  intros Hw. pose proof (widest_nonneg text) as H0.
  unfold rightAlignText, padding. rewrite longest_fold by lia.
  rewrite Z.max_r by assumption.
  destruct (Z.ltb_spec (widest text) width) as [Hlt | Hge].
  - unfold GoInt.sub. rewrite wrap_small by (unfold GoInt.inRange; lia).
    now rewrite Z.max_r by lia.
  - rewrite Z.max_l by lia.
    change (spaces 0) with ""%string. simpl.
    now rewrite map_id.
Qed.

Lemma rightAlignText_widest (text : list string) (width : Z) :
  width < 2 ^ 63 -> text <> [] ->
  widest (rightAlignText text width) = Z.max (widest text) width.
Proof.
  intros Hw Hne. pose proof (widest_nonneg text) as H0.
  rewrite rightAlignText_map, widest_padded; auto; unfold padding; lia.
Qed.

(** X1. [rightAlignText] shifts a block of lines as a whole: every line
    gets the same left padding, the number of columns the longest line
    lacks to [width] (none when it is [width] long or longer), so the
    lines keep their number, their order and their relative columns, and
    the longest line of a padded block is exactly [width] long. *)
Theorem rightAlignText_pads (text : list string) (width : Z) :
  width < 2 ^ 63 ->
  rightAlignText text width
  = map (fun l => (spaces (padding text width) ++ l)%string) text
  /\ List.length (rightAlignText text width) = List.length text
  /\ (forall l, In l text ->
        In (spaces (padding text width) ++ l)%string (rightAlignText text width)
        /\ len (spaces (padding text width) ++ l)%string
           <= Z.max (widest text) width)
  /\ (text <> [] ->
      widest (rightAlignText text width) = Z.max (widest text) width).
Proof.
  intros Hw.
  pose proof (rightAlignText_map text width Hw) as Heq.
  split; [exact Heq |]. split; [| split].
  - rewrite Heq. apply length_map.
  - intros l Hl. split.
    + rewrite Heq.
      apply (in_map (fun l => (spaces (padding text width) ++ l)%string)), Hl.
    + pose proof (widest_bound text l Hl).
      rewrite len_append, len_spaces by (unfold padding; lia).
      unfold padding. lia.
  - now apply rightAlignText_widest.
Qed.

Lemma rightAlignText_pads_witness :
  rightAlignText ["12"; "1"]%string 5 = ["   12"; "   1"]%string.
Proof.
  exact (proj1 (rightAlignText_pads ["12"; "1"]%string 5 eq_refl)).
Defined.

(** X2. Aligning an aligned block again changes nothing. *)
Theorem rightAlignText_idempotent (text : list string) (width : Z) :
  width < 2 ^ 63 ->
  rightAlignText (rightAlignText text width) width = rightAlignText text width.
Proof.
  intros Hw.
  assert (Hnil : rightAlignText [] width = [])
    by (unfold rightAlignText; simpl; now destruct (0 <? width)).
  destruct text as [| l text]; [now rewrite !Hnil |].
  pose proof (rightAlignText_widest (l :: text) width Hw ltac:(discriminate))
    as Hwide.
  set (out := rightAlignText (l :: text) width) in *.
  unfold rightAlignText at 1. rewrite longest_fold, Hwide by lia.
  pose proof (widest_nonneg (l :: text)).
  destruct (Z.ltb_spec (Z.max 0 (Z.max (widest (l :: text)) width)) width); [lia | reflexivity].
Qed.

Lemma rightAlignText_idempotent_witness :
  rightAlignText (rightAlignText ["12"; "1"]%string 5) 5
  = rightAlignText ["12"; "1"]%string 5.
Proof.
  exact (rightAlignText_idempotent ["12"; "1"]%string 5 eq_refl).
Defined.

End TextFacts.

(** ** More on the range query *)

Module AlignFacts.

Import Prom Spec Derived GoIntFacts.

Lemma countdown_bounds (length i : Z) :
  In i (countdown length) -> 0 <= i <= length.
Proof.
  unfold countdown. rewrite in_map_iff.
  intros (k & <- & Hk). apply in_seq in Hk. lia.
Qed.

Lemma TimeOf_injective (a b : Z) : TimeOf a = TimeOf b -> a = b.
Proof. unfold TimeOf. lia. Qed.

Lemma firstAt_permutation (l l' : list SamplePair) (t : GoTime.Time)
    (nilValue : float) :
  Permutation l l' -> NoDup (map Timestamp l) ->
  firstAt l t nilValue = firstAt l' t nilValue.
Proof.
  induction 1 as [| x l l' Hperm IH | x y l | l l' l'' H1 IH1 H2 IH2];
    intros Hnd; simpl.
  - reflexivity.
  - inversion Hnd as [| ? ? _ Hrest]; subst. now rewrite IH.
  - destruct (Z.eqb_spec (TimeOf (Timestamp y)) t) as [Hy | _];
      destruct (Z.eqb_spec (TimeOf (Timestamp x)) t) as [Hx | _]; try reflexivity.
    inversion Hnd as [| ? ? Hnotin _]; subst.
    elim Hnotin. left. apply TimeOf_injective. congruence.
  - rewrite IH1 by assumption. apply IH2.
    apply (Permutation_NoDup (Permutation_map Timestamp H1) Hnd).
Qed.

(** X3. The order of the samples in the response does not matter when
    their timestamps are distinct: [findPromValue] gives the same value
    for a series and for any rearrangement of it. *)
Theorem findPromValue_any_order (l l' : list SamplePair) (t : GoTime.Time)
    (nilValue : float) :
  Permutation l l' ->
  NoDup (map Timestamp l) ->
  findPromValue {| Values := l |} t nilValue
  = findPromValue {| Values := l' |} t nilValue.
Proof.
  intros Hperm Hnd. unfold findPromValue. simpl.
  now apply firstAt_permutation.
Qed.

Lemma findPromValue_any_order_witness :
  findPromValue {| Values := Values Fixture.full |}
    (Fixture.noon * 1000000000) Dash.nullValue
  = findPromValue {| Values := rev (Values Fixture.full) |}
      (Fixture.noon * 1000000000) Dash.nullValue.
Proof.
  apply (findPromValue_any_order (Values Fixture.full) (rev (Values Fixture.full))).
  - apply Permutation_rev.
  - simpl. repeat constructor; simpl; intuition discriminate.
Defined.

(** The grid is made of whole seconds. *)
Lemma timeThen_whole (clock length intervalSeconds i : Z) :
  Z.abs (length * intervalSeconds) * 1000000000 < 2 ^ 63 ->
  0 <= i <= length ->
  timeThen (GoTime.RoundSecond clock) i intervalSeconds mod 1000000000 = 0.
Proof.
  intros Hb Hi. rewrite (PromFacts.timeThen_grid _ length) by assumption.
  unfold gridTime, GoTime.RoundSecond, GoTime.Second.
  replace ((clock + 500000000) / 1000000000 * 1000000000
           - i * intervalSeconds * 1000000000)
    with (((clock + 500000000) / 1000000000 - i * intervalSeconds) * 1000000000)
    by ring.
  apply Z.mod_mul. lia.
Qed.

Lemma firstAt_whole (l : list SamplePair) (t : GoTime.Time) (nilValue : float) :
  t mod 1000000000 = 0 ->
  firstAt (filter (fun p => Timestamp p mod 1000 =? 0) l) t nilValue
  = firstAt l t nilValue.
Proof.
  intros Ht. induction l as [| p l IH]; [reflexivity |].
  simpl. destruct (Z.eqb_spec (Timestamp p mod 1000) 0) as [Hw | Hw]; simpl.
  - now rewrite IH.
  - rewrite IH.
    destruct (Z.eqb_spec (TimeOf (Timestamp p)) t) as [Heq | _]; [| reflexivity].
    elim Hw. rewrite <- Heq in Ht. unfold TimeOf in Ht.
    change 1000000000 with (1000 * 1000000) in Ht.
    rewrite Z.mul_mod_distr_r in Ht by lia. lia.
Qed.

(** X4. Samples that are not on a whole second never reach the chart:
    the grid is made of the rounded clock and whole seconds, so the call
    gives, whatever the backend, what it gives once those samples are
    taken out of every series. *)
Theorem off_second_samples_ignored (w : World) (promFlag query : string)
    (length intervalSeconds : Z) (nilValue : float) (tz : GoTime.Location) :
  Z.abs (length * intervalSeconds) * 1000000000 < 2 ^ 63 ->
  prometheusQueryRange w promFlag query length intervalSeconds nilValue tz
  = prometheusQueryRange (onWholeSeconds w) promFlag query length
      intervalSeconds nilValue tz.
Proof.
  intros Hb. unfold prometheusQueryRange. simpl.
  destruct (negb (clientOk w promFlag)); [reflexivity |].
  destruct (queryRange w promFlag query _) as [[[| s rest] | | | |] |];
    try reflexivity.
  simpl map. rewrite !PromFacts.align_fold. simpl. f_equal. f_equal.
  apply map_ext_in. intros i Hi. apply countdown_bounds in Hi.
  unfold findPromValue, wholeSeconds. simpl. symmetry.
  apply firstAt_whole. now apply (timeThen_whole _ length).
Qed.

Lemma off_second_samples_ignored_witness :
  prometheusQueryRange (Fixture.answering (Some (Matrix [Fixture.sparse])))
    "http://prom:9090" "up" 2 60 Dash.nullValue GoTime.UTC
  = prometheusQueryRange
      (onWholeSeconds (Fixture.answering (Some (Matrix [Fixture.sparse]))))
      "http://prom:9090" "up" 2 60 Dash.nullValue GoTime.UTC.
Proof.
  apply (off_second_samples_ignored
           (Fixture.answering (Some (Matrix [Fixture.sparse])))
           "http://prom:9090" "up" 2 60 Dash.nullValue GoTime.UTC).
  vm_compute. reflexivity.
Defined.

(** X5. Whatever the backend, the values and the labels the call returns
    are as many; and for a window length that is not negative the series
    is empty exactly when the query itself failed, and has [length+1]
    points otherwise: an empty series tells the caller of a failed query
    and of nothing else. *)
Theorem returned_series_shape (w : World) (promFlag query : string)
    (length intervalSeconds : Z) (nilValue : float) (tz : GoTime.Location)
    (values : list float) (labels : list string) :
  0 <= length ->
  prometheusQueryRange w promFlag query length intervalSeconds nilValue tz
  = Returned (values, labels) ->
  List.length values = List.length labels
  /\ (values = [] <->
      queryRange w promFlag query
        (window (GoTime.RoundSecond (clock w)) length intervalSeconds) = None)
  /\ (values <> [] -> Z.of_nat (List.length values) = length + 1).
Proof.
  intros Hlen. unfold prometheusQueryRange.
  destruct (negb (clientOk w promFlag)); [discriminate |].
  destruct (queryRange w promFlag query _) as [[[| s rest] | | | |] |];
    try discriminate.
  - intros H.
    destruct (PromFacts.align_fold_empty (GoTime.RoundSecond (clock w))
                intervalSeconds nilValue tz (countdown length) ([], []))
      as [msg Hmsg].
    + intros Hnil. apply (f_equal (@List.length Z)) in Hnil.
      rewrite PromFacts.countdown_length in Hnil. simpl in Hnil. lia.
    + rewrite Hmsg in H. discriminate H.
  - rewrite PromFacts.align_fold. simpl. intros H. injection H as <- <-.
    rewrite !length_map, PromFacts.countdown_length.
    repeat split; try lia; try discriminate.
    intros Hnil. apply (f_equal (@List.length float)) in Hnil.
    rewrite length_map, PromFacts.countdown_length in Hnil. simpl in Hnil. lia.
  - intros H. injection H as <- <-. repeat split; auto. congruence.
Qed.

Lemma returned_series_shape_witness :
  List.length [7; -999; 9]%float = List.length ["11:58"; "11:59"; "12:00"]%string
  /\ ([7; -999; 9]%float = [] <->
      queryRange (Fixture.answering (Some (Matrix [Fixture.sparse])))
        "http://prom:9090" "up"
        (window (GoTime.RoundSecond
                   (clock (Fixture.answering (Some (Matrix [Fixture.sparse])))))
           2 60) = None)
  /\ ([7; -999; 9]%float <> [] ->
      Z.of_nat (List.length [7; -999; 9]%float) = 2 + 1).
Proof.
  apply (returned_series_shape
           (Fixture.answering (Some (Matrix [Fixture.sparse])))
           "http://prom:9090" "up" 2 60 Dash.nullValue GoTime.UTC).
  - lia.
  - reflexivity.
Defined.

(** X6. How the call can end, in full.  It exits exactly when the client
    cannot be made or the result is not a matrix; it panics exactly when
    the result is a matrix of no series and the window length is not
    negative; in every other case it returns. *)
Theorem prometheusQueryRange_ends (w : World) (promFlag query : string)
    (length intervalSeconds : Z) (nilValue : float) (tz : GoTime.Location) :
  let answer := queryRange w promFlag query
                  (window (GoTime.RoundSecond (clock w)) length intervalSeconds) in
  let call := prometheusQueryRange w promFlag query length intervalSeconds
                nilValue tz in
  ((exists msg, call = Exited msg) <->
     clientOk w promFlag = false
     \/ exists v, answer = Some v /\ forall m, v <> Matrix m)
  /\ ((exists msg, call = Panicked msg) <->
        clientOk w promFlag = true /\ answer = Some (Matrix []) /\ 0 <= length).
Proof.
  intros answer call. unfold call, answer, prometheusQueryRange.
  destruct (clientOk w promFlag); simpl.
  2:{ split; split.
      - intros _. now left.
      - intros _. now eexists.
      - intros [msg H]. discriminate H.
      - intros [H _]. discriminate H. }
  destruct (queryRange w promFlag query _) as [[[| s rest] | | | |] |].
  - (* a matrix of no series *)
    split; split.
    + intros [msg H].
      destruct (countdown length) as [| i turns] eqn:Hturns; [discriminate H |].
      simpl in H.
      assert (Hp : forall l, fold_left
                     (alignStep [] (GoTime.RoundSecond (clock w)) intervalSeconds
                        nilValue tz) l
                     (Panicked "index out of range: result.(model.Matrix)")
                   = Panicked "index out of range: result.(model.Matrix)")
        by (induction l; simpl; auto).
      rewrite Hp in H. discriminate H.
    + intros [H | (v & Hv & Hnot)]; [discriminate H |].
      injection Hv as <-. now elim (Hnot []).
    + intros [msg H]. repeat split.
      destruct (Z.le_gt_cases 0 length) as [Hle | Hgt]; [exact Hle |].
      unfold countdown in H. replace (Z.to_nat (length + 1)) with 0%nat in H by lia.
      discriminate H.
    + intros (_ & _ & Hlen). apply PromFacts.align_fold_empty.
      intros Hnil. apply (f_equal (@List.length Z)) in Hnil.
      rewrite PromFacts.countdown_length in Hnil. simpl in Hnil. lia.
  - (* a matrix with a first series *)
    rewrite PromFacts.align_fold. split; split.
    + intros [msg H]. discriminate H.
    + intros [H | (v & Hv & Hnot)]; [discriminate H |].
      injection Hv as <-. now elim (Hnot (s :: rest)).
    + intros [msg H]. discriminate H.
    + intros (_ & H & _). discriminate H.
  - split; split; try (intros [msg H]; discriminate H); try (intros (_ & H & _); discriminate H).
    + intros _. right. exists Vector. split; [reflexivity | discriminate].
    + intros _. now eexists.
  - split; split; try (intros [msg H]; discriminate H); try (intros (_ & H & _); discriminate H).
    + intros _. right. exists Scalar. split; [reflexivity | discriminate].
    + intros _. now eexists.
  - split; split; try (intros [msg H]; discriminate H); try (intros (_ & H & _); discriminate H).
    + intros _. right. exists StringValue. split; [reflexivity | discriminate].
    + intros _. now eexists.
  - split; split; try (intros [msg H]; discriminate H); try (intros (_ & H & _); discriminate H).
    + intros _. right. exists NoneValue. split; [reflexivity | discriminate].
    + intros _. now eexists.
  - split; split; try (intros [msg H]; discriminate H); try (intros (_ & H & _); discriminate H).
    intros [H | (v & Hv & _)]; discriminate.
Qed.

(** X7. The grid the loop looks up is the grid the query asks for: the
    oldest point is the [Start] of the range, the newest is its [End], and
    the points in between are [Step] apart (for a step that is not
    negative and a window that fits a [Duration]). *)
Theorem grid_is_the_query_range (timeNow length intervalSeconds : Z) :
  0 <= length ->
  0 <= intervalSeconds ->
  (length + 1) * intervalSeconds * 1000000000 < 2 ^ 63 ->
  let r := window timeNow length intervalSeconds in
  Start r = timeThen timeNow length intervalSeconds
  /\ End_ r = timeThen timeNow 0 intervalSeconds
  /\ Step r = intervalSeconds * 1000000000
  /\ forall i, 0 <= i <= length ->
       timeThen timeNow i intervalSeconds = Start r + (length - i) * Step r
       /\ Start r <= timeThen timeNow i intervalSeconds <= End_ r.
Proof.
  intros Hlen Hiv Hb r.
  assert (Hli : 0 <= length * intervalSeconds) by (apply Z.mul_nonneg_nonneg; lia).
  assert (Hexp : (length + 1) * intervalSeconds * 1000000000
                 = length * intervalSeconds * 1000000000
                   + intervalSeconds * 1000000000) by lia.
  assert (Hbound : Z.abs (length * intervalSeconds) * 1000000000 < 2 ^ 63)
    by (rewrite Z.abs_eq; lia).
  assert (Hgrid : forall i, 0 <= i <= length ->
            timeThen timeNow i intervalSeconds
            = timeNow - i * intervalSeconds * 1000000000)
    by (intros i Hi; now apply (PromFacts.timeThen_grid _ length)).
  assert (Hstart : Start r = timeNow - length * intervalSeconds * 1000000000).
  { unfold r, window, Start, GoTime.Add, GoInt.mul, GoInt.neg, GoTime.Second.
    rewrite (wrap_small (length * intervalSeconds)) by (unfold GoInt.inRange; lia).
    rewrite (wrap_small (- (length * intervalSeconds)))
      by (unfold GoInt.inRange; lia).
    rewrite wrap_small by (unfold GoInt.inRange; lia). lia. }
  assert (Hstep : Step r = intervalSeconds * 1000000000).
  { unfold r, window, Step, GoInt.mul, GoTime.Second.
    apply wrap_small. unfold GoInt.inRange. lia. }
  assert (Hend : End_ r = timeNow) by reflexivity.
  rewrite Hstart, Hstep, Hend, !Hgrid by lia.
  repeat split; try lia.
  - rewrite Hgrid by assumption. lia.
  - rewrite Hgrid by assumption.
    assert (i * intervalSeconds <= length * intervalSeconds)
      by (apply Z.mul_le_mono_nonneg_r; lia).
    lia.
  - rewrite Hgrid by assumption.
    assert (0 <= i * intervalSeconds) by (apply Z.mul_nonneg_nonneg; lia).
    lia.
Qed.

Lemma grid_is_the_query_range_witness :
  Start (window 1700049600000000000 32 60) = timeThen 1700049600000000000 32 60
  /\ End_ (window 1700049600000000000 32 60) = timeThen 1700049600000000000 0 60
  /\ Step (window 1700049600000000000 32 60) = 60 * 1000000000
  /\ forall i, 0 <= i <= 32 ->
       timeThen 1700049600000000000 i 60
       = Start (window 1700049600000000000 32 60)
         + (32 - i) * Step (window 1700049600000000000 32 60)
       /\ Start (window 1700049600000000000 32 60)
          <= timeThen 1700049600000000000 i 60
          <= End_ (window 1700049600000000000 32 60).
Proof.
  apply (grid_is_the_query_range 1700049600000000000 32 60).
  - lia.
  - lia.
  - vm_compute. reflexivity.
Defined.

End AlignFacts.

(** ** More on the colours *)

Module ScanFacts.

Import Ui Dash Spec Derived.

Lemma scanFrom_moving (warn error : float) (r0 : list float) (c : Color) :
  scanFrom warn error c (moving warn error r0) = scanFrom warn error c r0.
Proof.
  unfold scanFrom, moving. revert c.
  induction r0 as [| d r0 IH]; intros c; simpl; [reflexivity |].
  destruct (escalates warn error d) eqn:Hd; simpl.
  - apply IH.
  - rewrite (ColorFacts.colorStep_calm warn error c d Hd). apply IH.
Qed.

Lemma scanFrom_colors (warn error : float) (r0 : list float) (c : Color) :
  c = ColorGreen \/ c = ColorYellow \/ c = ColorMagenta \/ c = ColorRed ->
  scanFrom warn error c r0 = ColorGreen
  \/ scanFrom warn error c r0 = ColorYellow
  \/ scanFrom warn error c r0 = ColorMagenta
  \/ scanFrom warn error c r0 = ColorRed.
Proof.
  unfold scanFrom. revert c.
  induction r0 as [| d r0 IH]; intros c Hc; simpl; [exact Hc |].
  apply IH. unfold colorStep.
  destruct ((warn <? d)%float && Color_eqb c ColorGreen); [tauto |].
  destruct (d =? nullValue)%float; [tauto |].
  destruct (error <? d)%float; tauto.
Qed.

(** X8. Only the points that are missing or above a threshold count for
    the colour of the line: the scan gives the same colour once every
    other point is taken out of the series; and the colour is always one
    of green, yellow, magenta and red. *)
Theorem lineColor_moving_points (ds : Datasource) (r0 : list float) :
  lineColor ds (moving (DsWarn ds) (DsError ds) r0) = lineColor ds r0
  /\ (lineColor ds r0 = ColorGreen \/ lineColor ds r0 = ColorYellow
      \/ lineColor ds r0 = ColorMagenta \/ lineColor ds r0 = ColorRed).
Proof.
  unfold lineColor, scanColors.
  destruct (0 <? DsWarn ds)%float.
  - split; [apply scanFrom_moving | apply scanFrom_colors; tauto].
  - split; [reflexivity | tauto].
Qed.

(** The sentinel is negative. *)
Lemma sentinel_negative (d : float) :
  (d =? nullValue)%float = true -> (d <? 0)%float = true.
Proof.
  rewrite ltb_spec, eqb_spec, ColorFacts.nullValue_SF, ColorFacts.zero_SF.
  destruct (Prim2SF d) as [[] | [] | | [] md ed];
    unfold SFltb, SFeqb, SFcompare; try discriminate; try reflexivity.
Qed.

(** X9. With thresholds configured, a series whose newest point is
    missing is drawn with the line in magenta and the figure in red,
    whatever the values before it. *)
Theorem missing_newest_point (ds : Datasource) (r0 : list float) :
  (0 <? DsWarn ds)%float = true ->
  r0 <> [] ->
  (last r0 0 =? nullValue)%float = true ->
  lineColor ds r0 = ColorMagenta /\ statusColor ds r0 = "red"%string.
Proof.
  intros Hw Hne Hlast. split.
  - unfold lineColor, scanColors. rewrite Hw.
    rewrite (app_removelast_last 0%float Hne).
    apply ColorFacts.scan_ends_missing; auto.
    intros x [].
  - unfold statusColor. rewrite Hw, (sentinel_negative _ Hlast).
    now destruct (DsError ds <? last r0 0)%float.
Qed.

Lemma missing_newest_point_witness :
  lineColor Fixture.cpu [50; 20; nullValue]%float = ColorMagenta
  /\ statusColor Fixture.cpu [50; 20; nullValue]%float = "red"%string.
Proof.
  apply (missing_newest_point Fixture.cpu [50; 20; nullValue]%float).
  - reflexivity.
  - discriminate.
  - reflexivity.
Defined.

End ScanFacts.

(** ** The sync job and the event loop *)

Module LoopFacts.

Import Ui Dash Spec Derived GoIntFacts.

(** [Format("1504")] gives four bytes. *)
Lemma format1504_four (loc : GoTime.Location) (t : GoTime.Time) :
  exists a b c d,
    GoTime.format1504 loc t = String a (String b (String c (String d EmptyString))).
Proof.
  unfold GoTime.format1504, GoTime.twoDigits. simpl. now eexists _, _, _, _.
Qed.

Lemma syncClock_returns (h : Host) (cfg : Config) (now : nat -> GoTime.Time)
    (s : State) :
  exists pc pd,
    syncClock h cfg now s
    = Returned (draw (Render [DrawParagraph PClock pc; DrawParagraph PDate pd])
                  (setDate pd (setClock pc s)))
    /\ pRect pc = pRect (pClock s) /\ pRect pd = pRect (pDate s).
Proof.
  unfold syncClock.
  destruct (flagTest cfg).
  - now eexists _, _.
  - destruct (format1504_four (timezone cfg) (now 0%nat)) as (a & b & c & d & ->).
    now eexists _, _.
Qed.

(** X10. [syncClock] cannot fail: the time always has the four digits it
    indexes.  It draws the clock and the date once, in one call, and
    leaves the layout, the chart, the metric paragraph, the counter and
    the refresh flag as they are; with the [-test] flag what it draws does
    not depend on the time. *)
Theorem syncClock_total (h : Host) (cfg : Config) (now later : nat -> GoTime.Time)
    (s : State) :
  (exists s',
     syncClock h cfg now s = Returned s'
     /\ drawnSince s s'
        = [Render [DrawParagraph PClock (pClock s'); DrawParagraph PDate (pDate s')]]
     /\ look s' = look s
     /\ layoutOf s' = layoutOf s
     /\ chart0 s' = chart0 s
     /\ pMetric s' = pMetric s
     /\ syncPromCount s' = syncPromCount s
     /\ refreshUi s' = refreshUi s)
  /\ (flagTest cfg = true -> syncClock h cfg later s = syncClock h cfg now s).
Proof.
  split.
  - destruct (syncClock_returns h cfg now s) as (pc & pd & -> & Hpc & Hpd).
    eexists. split; [reflexivity |].
    repeat split.
    + unfold drawnSince. simpl screen. apply ListFacts.skipn_length_app.
    + unfold layoutOf. simpl. now rewrite Hpc, Hpd.
  - intros Ht. unfold syncClock. now rewrite Ht.
Qed.

Lemma syncClock_look (h : Host) (cfg : Config) (now : nat -> GoTime.Time)
    (s s' : State) :
  syncClock h cfg now s = Returned s' ->
  look s' = look s /\ layoutOf s' = layoutOf s /\ refreshUi s' = refreshUi s
  /\ syncPromCount s' = syncPromCount s
  /\ screen s'
     = screen s ++ [Render [DrawParagraph PClock (pClock s');
                            DrawParagraph PDate (pDate s')]]
  /\ pMetric s' = pMetric s /\ chart0 s' = chart0 s.
Proof.
  destruct (syncClock_returns h cfg now s) as (pc & pd & -> & Hpc & Hpd).
  intros H. injection H as <-. repeat split.
  unfold layoutOf. simpl. now rewrite Hpc, Hpd.
Qed.

(** What [syncProm] leaves alone, and what it draws. *)
Lemma syncProm_look (h : Host) (cfg : Config) (w : Prom.World) (s s' : State) :
  syncProm h cfg w s = Returned s' ->
  look s' = look s /\ layoutOf s' = layoutOf s /\ refreshUi s' = refreshUi s
  /\ pClock s' = pClock s /\ pDate s' = pDate s
  /\ screen s'
     = screen s
       ++ (if String.eqb (fontLabel s) "" then []
           else [Render [DrawParagraph PMetric (pMetric s')]])
       ++ [Render [DrawPlot (chart0 s')]].
Proof.
  unfold syncProm.
  destruct (datasourceCount cfg =? 0); [discriminate |].
  destruct (index (dsConfig cfg) (sourceIndex cfg s)) as [ds | |]; try discriminate.
  simpl bind.
  destruct (Prom.prometheusQueryRange w (DsProm ds) (DsQuery ds)
              (GoInt.sub (width s) 8) 60 nullValue (timezone cfg))
    as [[r0 l0] | |]; try discriminate.
  simpl bind. cbn [fst snd]. rewrite PanelFacts.len_positive.
  intros H. injection H as <-.
  destruct (0 <? Z.of_nat (List.length r0)), (String.eqb (fontLabel s) "");
    simpl negb; cbv iota; repeat split; simpl screen;
    now rewrite <- ?app_assoc.
Qed.

Lemma resizeUi_dims (w ht : Z) (s : State) :
  width (resizeUi (w, ht) s) = w /\ height (resizeUi (w, ht) s) = ht.
Proof.
  unfold resizeUi. simpl fst. simpl snd.
  destruct ((w =? 240) && (ht =? 30)), ((131 <=? w) && (30 <=? ht)),
    ((68 <=? w) && (20 <=? ht)), ((40 <=? w) && (16 <=? ht)); split; reflexivity.
Qed.

Lemma resizeUi_screen (dims : Z * Z) (s : State) :
  fontClock (resizeUi dims s) <> ""%string ->
  screen (resizeUi dims s) = screen s ++ [Clear].
Proof.
  unfold resizeUi.
  destruct ((fst dims =? 240) && (snd dims =? 30)),
    ((131 <=? fst dims) && (30 <=? snd dims)),
    ((68 <=? fst dims) && (20 <=? snd dims)),
    ((40 <=? fst dims) && (16 <=? snd dims)); intros H; try reflexivity.
  now elim H.
Qed.

(** The fonts say which rule chose them. *)
Lemma outcomeOf_look (s s' : State) :
  look s' = look s -> outcomeOf s' = outcomeOf s.
Proof.
  unfold look, outcomeOf. intros H. injection H as -> _ -> _ -> _ _. reflexivity.
Qed.

(** After the resize, if any, a run of the sync job changes neither the
    layout nor the refresh flag. *)
Lemma syncTerminal_after (h : Host) (cfg : Config) (inp : Input) (s s' : State) :
  syncTerminal h cfg inp s = Returned s' ->
  let s1 := if refreshUi s
            then setRefreshUi false (resizeUi (terminal inp) s) else s in
  look s' = look s1 /\ layoutOf s' = layoutOf s1 /\ refreshUi s' = refreshUi s1.
Proof.
  unfold syncTerminal.
  set (s1 := if refreshUi s then setRefreshUi false (resizeUi (terminal inp) s) else s).
  intros Hrun. simpl.
  destruct (0 <? len (fontClock s1)).
  - destruct (syncClock h cfg (wallClock inp) s1) as [s2 | |] eqn:Hc;
      try discriminate Hrun.
    simpl bind in Hrun.
    destruct (syncClock_look _ _ _ _ _ Hc) as (Hl & Hy & Hr & _).
    destruct (syncProm_look _ _ _ _ _ Hrun) as (Hl' & Hy' & Hr' & _).
    repeat split; congruence.
  - injection Hrun as <-. auto.
Qed.

(** X11. Whenever a run of the sync job returns the refresh flag is down.
    With the flag down before the run, the run leaves the layout and the
    fonts as they were; with the flag up, it lays the screen out for the
    dimensions the terminal has at that moment; either way the clock font
    is empty afterwards exactly when those dimensions are unsupported. *)
Theorem syncTerminal_refresh (h : Host) (cfg : Config) (inp : Input)
    (s s' : State) :
  syncTerminal h cfg inp s = Returned s' ->
  refreshUi s' = false
  /\ (refreshUi s = false -> look s' = look s /\ layoutOf s' = layoutOf s)
  /\ (refreshUi s = true ->
      width s' = fst (terminal inp)
      /\ height s' = snd (terminal inp)
      /\ outcomeOf s'
         = Some (breakpoint (fst (terminal inp)) (snd (terminal inp)))).
Proof.
  intros Hrun.
  destruct (syncTerminal_after _ _ _ _ _ Hrun) as (Hl & Hy & Hr).
  destruct (refreshUi s) eqn:Hflag.
  - repeat split; try discriminate; try (rewrite Hr; reflexivity).
    + injection Hl as _ _ _ _ _ Hw _. rewrite Hw.
      destruct (terminal inp) as [w ht]. apply resizeUi_dims.
    + injection Hl as _ _ _ _ _ _ Hh. rewrite Hh.
      destruct (terminal inp) as [w ht]. apply resizeUi_dims.
    + rewrite (outcomeOf_look _ _ Hl).
      destruct (terminal inp) as [w ht]. simpl fst. simpl snd.
      exact (LayoutFacts.resizeUi_outcome w ht s).
  - repeat split; try discriminate; auto. congruence.
Qed.

Lemma syncTerminal_refresh_witness :
  refreshUi (Fixture.afterTick Fixture.three (80, 24) None) = false.
Proof.
  apply (syncTerminal_refresh Fixture.plain Fixture.three
           (Fixture.tick (80, 24) None) initial
           (Fixture.afterTick Fixture.three (80, 24) None)).
  vm_compute. reflexivity.
Defined.

(** X12. What a run of the sync job draws on a supported terminal, in
    order: the screen is cleared if the layout was refreshed; then the
    clock and the date, in one call; then the metric paragraph, where the
    layout has a label font; then the chart. *)
Theorem syncTerminal_draws (h : Host) (cfg : Config) (inp : Input)
    (s s' : State) :
  syncTerminal h cfg inp s = Returned s' ->
  fontClock s' <> ""%string ->
  drawnSince s s'
  = (if refreshUi s then [Clear] else [])
    ++ [Render [DrawParagraph PClock (pClock s'); DrawParagraph PDate (pDate s')]]
    ++ (if String.eqb (fontLabel s') "" then []
        else [Render [DrawParagraph PMetric (pMetric s')]])
    ++ [Render [DrawPlot (chart0 s')]].
Proof.
  unfold syncTerminal.
  set (s1 := if refreshUi s then setRefreshUi false (resizeUi (terminal inp) s) else s).
  intros Hrun Hfont.
  assert (H1 : fontClock s1 <> ""%string ->
               screen s1 = screen s ++ (if refreshUi s then [Clear] else [])).
  { unfold s1. destruct (refreshUi s).
    - intros Hf. simpl screen. now apply resizeUi_screen.
    - intros _. now rewrite app_nil_r. }
  rewrite PanelFacts.len_positive in Hrun.
  destruct (String.eqb_spec (fontClock s1) "") as [He | Hne]; simpl negb in Hrun.
  - injection Hrun as <-. now elim Hfont.
  - destruct (syncClock h cfg (wallClock inp) s1) as [s2 | |] eqn:Hc;
      try discriminate Hrun.
    simpl bind in Hrun.
    destruct (syncClock_look _ _ _ _ _ Hc) as (Hl & _ & _ & _ & Hs2 & _).
    destruct (syncProm_look _ _ _ _ _ Hrun) as (Hl' & _ & _ & Hpc & Hpd & Hs').
    assert (Hlabel : fontLabel s2 = fontLabel s')
      by (injection Hl' as _ _ _ _ Hlab _ _; now rewrite Hlab).
    unfold drawnSince. rewrite Hs', Hs2, (H1 Hne), Hlabel, <- Hpc, <- Hpd.
    rewrite <- !app_assoc. apply ListFacts.skipn_length_app.
Qed.

Lemma syncTerminal_draws_witness :
  drawnSince initial (Fixture.afterTick Fixture.three (80, 24) None)
  = (if refreshUi initial then [Clear] else [])
    ++ [Render [DrawParagraph PClock
                  (pClock (Fixture.afterTick Fixture.three (80, 24) None));
                DrawParagraph PDate
                  (pDate (Fixture.afterTick Fixture.three (80, 24) None))]]
    ++ (if String.eqb
             (fontLabel (Fixture.afterTick Fixture.three (80, 24) None)) ""
        then []
        else [Render [DrawParagraph PMetric
                (pMetric (Fixture.afterTick Fixture.three (80, 24) None))]])
    ++ [Render [DrawPlot
                  (chart0 (Fixture.afterTick Fixture.three (80, 24) None))]].
Proof.
  apply (syncTerminal_draws Fixture.plain Fixture.three
           (Fixture.tick (80, 24) None) initial
           (Fixture.afterTick Fixture.three (80, 24) None)).
  - vm_compute. reflexivity.
  - vm_compute. discriminate.
Defined.

Lemma onEvent_look (cfg : Config) (id : string) (s s' : State) (r : bool) :
  onEvent cfg id s = Continue s' r -> look s' = look s.
Proof.
  unfold onEvent.
  repeat match goal with
         | |- context [if oneOf id ?l then _ else _] => destruct (oneOf id l)
         end;
    try discriminate; intros H; injection H as <- _; reflexivity.
Qed.

Lemma supported_dimensions (s : State) (w ht : Z) :
  outcomeOf s = Some (breakpoint w ht) ->
  fontClock s <> ""%string ->
  40 <= w /\ 16 <= ht.
Proof.
  intros H Hf. unfold outcomeOf in H.
  destruct (String.eqb_spec (fontClock s) "") as [He | _]; [contradiction |].
  assert (Hb : breakpoint w ht <> Unsupported).
  { intros Hu. rewrite Hu in H.
    repeat match type of H with
           | (if ?b then _ else _) = _ => destruct b
           end; discriminate H. }
  clear H. unfold breakpoint, guard in Hb.
  destruct (Z.eqb_spec w 240), (Z.eqb_spec ht 30), (Z.leb_spec 131 w),
    (Z.leb_spec 30 ht), (Z.leb_spec 68 w), (Z.leb_spec 20 ht),
    (Z.leb_spec 40 w), (Z.leb_spec 16 ht);
    simpl in Hb; try lia; now elim Hb.
Qed.

Lemma label_font_dimensions (s : State) (w ht : Z) :
  outcomeOf s = Some (breakpoint w ht) ->
  fontClock s <> ""%string ->
  fontLabel s <> ""%string ->
  w = 240 /\ ht = 30.
Proof.
  intros H Hf Hl. unfold outcomeOf in H.
  destruct (String.eqb_spec (fontClock s) "") as [He | _]; [contradiction |].
  destruct (String.eqb_spec (fontLabel s) "") as [He | _]; [contradiction |].
  rewrite !andb_false_r in H.
  assert (Hb : breakpoint w ht = Panel).
  { destruct (String.eqb (fontClock s) "doh" && String.eqb (fontDate s) "standard"
              && String.eqb (fontLabel s) "standard");
      [now injection H | discriminate H]. }
  clear H. unfold breakpoint, guard in Hb.
  destruct (Z.eqb_spec w 240), (Z.eqb_spec ht 30); simpl in Hb; auto;
    repeat match type of Hb with
           | (if ?b then _ else _) = _ => destruct b
           end; discriminate Hb.
Qed.

Lemma step_keeps_layout (h : Host) (cfg : Config) (st : Step) (s s' : State) :
  outcomeOf s = Some (breakpoint (width s) (height s)) ->
  step h cfg st s = Returned (Some s') ->
  outcomeOf s' = Some (breakpoint (width s') (height s')).
Proof.
  intros Hinv Hstep.
  assert (Hsame : look s' = look s ->
                  outcomeOf s' = Some (breakpoint (width s') (height s'))).
  { intros Hl. rewrite (outcomeOf_look _ _ Hl).
    injection Hl as _ _ _ _ _ -> ->. exact Hinv. }
  destruct st as [id | inp |]; simpl in Hstep.
  - destruct (onEvent cfg id s) as [| s1 r] eqn:He; [discriminate |].
    injection Hstep as <-. apply Hsame. exact (onEvent_look _ _ _ _ _ He).
  - destruct (syncTerminal h cfg inp s) as [s1 | |] eqn:Ht; try discriminate.
    simpl in Hstep. injection Hstep as <-.
    destruct (syncTerminal_after _ _ _ _ _ Ht) as (Hl & _ & _).
    destruct (refreshUi s).
    + rewrite (outcomeOf_look _ _ Hl).
      injection Hl as _ _ _ _ _ -> ->.
      destruct (terminal inp) as [w ht].
      destruct (resizeUi_dims w ht s) as [Hw Hh].
      change (width (setRefreshUi false (resizeUi (w, ht) s)))
        with (width (resizeUi (w, ht) s)).
      change (height (setRefreshUi false (resizeUi (w, ht) s)))
        with (height (resizeUi (w, ht) s)).
      rewrite Hw, Hh. exact (LayoutFacts.resizeUi_outcome w ht s).
    + now apply Hsame.
  - injection Hstep as <-. now apply Hsame.
Qed.

Lemma run_keeps_layout (h : Host) (cfg : Config) (steps : list Step)
    (s s' : State) :
  outcomeOf s = Some (breakpoint (width s) (height s)) ->
  run h cfg steps s = Returned (Some s') ->
  outcomeOf s' = Some (breakpoint (width s') (height s')).
Proof.
  revert s. induction steps as [| st steps IH]; intros s Hinv Hrun; simpl in Hrun.
  - injection Hrun as <-. exact Hinv.
  - destruct (step h cfg st s) as [[s1 |] | |] eqn:Hstep; try discriminate Hrun.
    simpl in Hrun. apply (IH s1); auto.
    exact (step_keeps_layout h cfg st s s1 Hinv Hstep).
Qed.

(** X13. On every run of [main] the fonts are those of the rule for the
    dimensions last read, whatever the events and job runs so far; so a
    clock font is set only on a terminal of at least 40 columns and 16
    rows, where [width - 8], the window [syncProm] asks for, is at least
    32; and a label font is in use, and the metric paragraph drawn, on
    the 240x30 terminal only. *)
Theorem layout_follows_terminal (h : Host) (cfg : Config) (steps : list Step)
    (s : State) :
  run h cfg steps initial = Returned (Some s) ->
  outcomeOf s = Some (breakpoint (width s) (height s))
  /\ (fontClock s <> ""%string ->
      40 <= width s /\ 16 <= height s /\ 32 <= width s - 8)
  /\ (fontClock s <> ""%string -> fontLabel s <> ""%string ->
      width s = 240 /\ height s = 30).
Proof.
  intros Hrun.
  assert (Hinv : outcomeOf s = Some (breakpoint (width s) (height s)))
    by (apply (run_keeps_layout h cfg steps initial); [reflexivity | exact Hrun]).
  split; [exact Hinv |]. split.
  - intros Hf. destruct (supported_dimensions s _ _ Hinv Hf). lia.
  - intros Hf Hl. exact (label_font_dimensions s _ _ Hinv Hf Hl).
Qed.

Lemma layout_follows_terminal_witness :
  outcomeOf (Fixture.afterTick Fixture.three (80, 24) None)
  = Some (breakpoint (width (Fixture.afterTick Fixture.three (80, 24) None))
            (height (Fixture.afterTick Fixture.three (80, 24) None)))
  /\ (fontClock (Fixture.afterTick Fixture.three (80, 24) None) <> ""%string ->
      40 <= width (Fixture.afterTick Fixture.three (80, 24) None)
      /\ 16 <= height (Fixture.afterTick Fixture.three (80, 24) None)
      /\ 32 <= width (Fixture.afterTick Fixture.three (80, 24) None) - 8)
  /\ (fontClock (Fixture.afterTick Fixture.three (80, 24) None) <> ""%string ->
      fontLabel (Fixture.afterTick Fixture.three (80, 24) None) <> ""%string ->
      width (Fixture.afterTick Fixture.three (80, 24) None) = 240
      /\ height (Fixture.afterTick Fixture.three (80, 24) None) = 30).
Proof.
  apply (layout_follows_terminal Fixture.plain Fixture.three
           [SyncJob (Fixture.tick (80, 24) None)]
           (Fixture.afterTick Fixture.three (80, 24) None)).
  vm_compute. reflexivity.
Defined.

(** With the flag down and a clock font, a run of the sync job that
    returns has moved the counter by one and changed neither. *)
Lemma syncTerminal_advances (h : Host) (cfg : Config) (inp : Input)
    (s s' : State) :
  refreshUi s = false ->
  fontClock s <> ""%string ->
  syncTerminal h cfg inp s = Returned s' ->
  syncPromCount s' = GoInt.add (syncPromCount s) 1
  /\ refreshUi s' = false
  /\ fontClock s' = fontClock s.
Proof.
  intros Hr Hf Hrun.
  destruct (syncTerminal_after _ _ _ _ _ Hrun) as (Hl & _ & Hr').
  rewrite Hr in Hl, Hr'.
  split; [| split; [congruence | now injection Hl as -> _ _ _ _ _ _]].
  unfold syncTerminal in Hrun. rewrite Hr in Hrun.
  rewrite PanelFacts.len_positive in Hrun.
  destruct (String.eqb_spec (fontClock s) "") as [He | _]; [contradiction |].
  simpl negb in Hrun. cbv iota in Hrun.
  destruct (syncClock h cfg (wallClock inp) s) as [s2 | |] eqn:Hc;
    try discriminate Hrun.
  simpl bind in Hrun.
  rewrite (CursorFacts.syncProm_count _ _ _ _ _ Hrun).
  now rewrite (CursorFacts.syncClock_count _ _ _ _ _ Hc).
Qed.

Lemma ticks_count (h : Host) (cfg : Config) (inps : list Input) (s s' : State) :
  0 <= syncPromCount s ->
  syncPromCount s + Z.of_nat (List.length inps) < 2 ^ 63 ->
  refreshUi s = false ->
  fontClock s <> ""%string ->
  run h cfg (map SyncJob inps) s = Returned (Some s') ->
  syncPromCount s' = syncPromCount s + Z.of_nat (List.length inps).
Proof.
  revert s. induction inps as [| inp inps IH]; intros s H0 Hb Hr Hf Hrun;
    simpl in Hrun.
  - injection Hrun as <-. simpl. lia.
  - destruct (syncTerminal h cfg inp s) as [s1 | |] eqn:Ht; try discriminate Hrun.
    simpl in Hrun.
    destruct (syncTerminal_advances _ _ _ _ _ Hr Hf Ht) as (Hc & Hr1 & Hf1).
    unfold GoInt.add in Hc.
    rewrite wrap_small in Hc
      by (unfold GoInt.inRange; simpl List.length in Hb; lia).
    simpl List.length in *.
    rewrite (IH s1); try congruence; lia.
Qed.

(** X14. The timer goes round the sources: from a laid-out screen, [k]
    runs of the sync job in a row, all returning, move the counter by [k]
    and the index from [i] to [(i + k) mod N]; after [N] runs the index is
    back where it was. *)
Theorem ticks_go_round (h : Host) (cfg : Config) (inps : list Input)
    (s s' : State) :
  let N := datasourceCount cfg in
  let k := Z.of_nat (List.length inps) in
  1 <= N ->
  0 <= syncPromCount s ->
  syncPromCount s + k < 2 ^ 63 ->
  refreshUi s = false ->
  fontClock s <> ""%string ->
  run h cfg (map SyncJob inps) s = Returned (Some s') ->
  syncPromCount s' = syncPromCount s + k
  /\ sourceIndex cfg s' = (sourceIndex cfg s + k) mod N
  /\ (k = N -> sourceIndex cfg s' = sourceIndex cfg s).
Proof.
  intros N k Hn H0 Hb Hr Hf Hrun.
  pose proof (ticks_count h cfg inps s s' H0 Hb Hr Hf Hrun) as Hc. fold k in Hc.
  assert (Hidx : forall c, 0 <= c < 2 ^ 63 -> GoInt.wrap (Z.rem c N) = c mod N).
  { intros c Hcb. rewrite Z.rem_mod_nonneg by lia.
    pose proof (Z.mod_pos_bound c N ltac:(lia)).
    pose proof (Z.mod_le c N ltac:(lia) ltac:(lia)).
    rewrite wrap_small; unfold GoInt.inRange; lia. }
  assert (Hk : 0 <= k) by (unfold k; lia).
  assert (Hmove : sourceIndex cfg s' = (sourceIndex cfg s + k) mod N).
  { unfold sourceIndex, GoInt.rem. fold N.
    rewrite Hc, !Hidx by lia. now rewrite Z.add_mod_idemp_l by lia. }
  repeat split; auto.
  intros HkN. rewrite Hmove, HkN.
  unfold sourceIndex, GoInt.rem. fold N. rewrite Hidx by lia.
  rewrite <- (Z.mul_1_l N) at 2. rewrite Z.mod_add by lia.
  apply Z.mod_mod. lia.
Qed.

Lemma ticks_go_round_witness :
  syncPromCount
    (Fixture.ran Fixture.three
       (map SyncJob [Fixture.tick (80, 24) None; Fixture.tick (80, 24) None;
                     Fixture.tick (80, 24) None])
       (Fixture.afterTick Fixture.three (80, 24) None))
  = syncPromCount (Fixture.afterTick Fixture.three (80, 24) None) + 3
  /\ sourceIndex Fixture.three
       (Fixture.ran Fixture.three
          (map SyncJob [Fixture.tick (80, 24) None; Fixture.tick (80, 24) None;
                        Fixture.tick (80, 24) None])
          (Fixture.afterTick Fixture.three (80, 24) None))
     = (sourceIndex Fixture.three (Fixture.afterTick Fixture.three (80, 24) None)
        + 3) mod 3
  /\ (3 = 3 ->
      sourceIndex Fixture.three
        (Fixture.ran Fixture.three
           (map SyncJob [Fixture.tick (80, 24) None; Fixture.tick (80, 24) None;
                         Fixture.tick (80, 24) None])
           (Fixture.afterTick Fixture.three (80, 24) None))
      = sourceIndex Fixture.three (Fixture.afterTick Fixture.three (80, 24) None)).
Proof.
  apply (ticks_go_round Fixture.plain Fixture.three
           [Fixture.tick (80, 24) None; Fixture.tick (80, 24) None;
            Fixture.tick (80, 24) None]
           (Fixture.afterTick Fixture.three (80, 24) None)
           (Fixture.ran Fixture.three
              (map SyncJob [Fixture.tick (80, 24) None; Fixture.tick (80, 24) None;
                            Fixture.tick (80, 24) None])
              (Fixture.afterTick Fixture.three (80, 24) None))).
  - vm_compute. discriminate.
  - vm_compute. discriminate.
  - vm_compute. reflexivity.
  - vm_compute. reflexivity.
  - vm_compute. discriminate.
  - vm_compute. reflexivity.
Defined.

(** X15. "Refresh current": once the source of index [current] is
    rendered, the space key and a resize event put the counter back on it
    and raise the refresh flag, so that the next run of the sync job lays
    the screen out again and renders the same source. *)
Theorem refresh_keeps_source (h : Host) (cfg : Config) (w : Prom.World)
    (s rendered : State) (id : string) :
  let N := datasourceCount cfg in
  let current := sourceIndex cfg s in
  1 <= N ->
  - 2 ^ 63 <= syncPromCount s ->
  syncPromCount s + N < 2 ^ 63 ->
  0 <= syncPromCount s \/ N = 1 ->
  syncProm h cfg w s = Returned rendered ->
  id = "<Space>"%string \/ id = "<Resize>"%string ->
  exists next,
    onEvent cfg id rendered = Continue next true
    /\ refreshUi next = true
    /\ syncPromCount next = syncPromCount s + N
    /\ sourceIndex cfg next = current.
Proof.
  intros N current Hn Hlo Hhi Hs Hsync Hid.
  pose proof (CursorFacts.syncProm_count _ _ _ _ _ Hsync) as Hcount.
  unfold GoInt.add in Hcount.
  rewrite wrap_small in Hcount by (unfold GoInt.inRange; lia).
  exists (setRefreshUi true
            (setSyncPromCount
               (GoInt.add (syncPromCount rendered) (GoInt.sub N 1)) rendered)).
  split; [destruct Hid as [-> | ->]; reflexivity |].
  split; [reflexivity |].
  assert (Hnext : GoInt.add (syncPromCount rendered) (GoInt.sub N 1)
                  = syncPromCount s + N).
  { rewrite Hcount. unfold GoInt.add, GoInt.sub.
    rewrite (wrap_small (N - 1)) by (unfold GoInt.inRange; lia).
    rewrite wrap_small by (unfold GoInt.inRange; lia). lia. }
  split; [exact Hnext |].
  unfold current, sourceIndex. simpl syncPromCount. rewrite Hnext.
  unfold GoInt.rem. fold N. f_equal.
  destruct Hs as [Hpos | H1].
  - rewrite !Z.rem_mod_nonneg by lia.
    rewrite <- (Z.mul_1_l N) at 1. now rewrite Z.mod_add by lia.
  - now rewrite H1, !Z.rem_1_r.
Qed.

Lemma refresh_keeps_source_witness :
  exists next,
    onEvent Fixture.three "<Space>"
      (Fixture.shown Fixture.three None (Fixture.laid (80, 24)))
    = Continue next true
    /\ refreshUi next = true
    /\ syncPromCount next
       = syncPromCount (Fixture.laid (80, 24)) + datasourceCount Fixture.three
    /\ sourceIndex Fixture.three next
       = sourceIndex Fixture.three (Fixture.laid (80, 24)).
Proof.
  refine (refresh_keeps_source Fixture.plain Fixture.three (Fixture.answering None)
            (Fixture.laid (80, 24))
            (Fixture.shown Fixture.three None (Fixture.laid (80, 24)))
            "<Space>" _ _ _ _ _ (or_introl eq_refl)).
  - vm_compute. discriminate.
  - vm_compute. discriminate.
  - vm_compute. reflexivity.
  - left. vm_compute. discriminate.
  - vm_compute. reflexivity.
Defined.

Lemma run_app (h : Host) (cfg : Config) (before after : list Step) (s : State) :
  run h cfg (before ++ after) s
  = r <- run h cfg before s ;;
    match r with
    | Some s' => run h cfg after s'
    | None => Returned None
    end.
Proof.
  revert s. induction before as [| st before IH]; intros s; simpl.
  - reflexivity.
  - destruct (step h cfg st s) as [[s1 |] | |]; simpl; auto.
Qed.

(** X16. The quit keys end the run: whatever comes after "q" or Ctrl-C
    in a run is not handled, nothing more is drawn and no job body runs;
    and only they end it, every other event leaves the loop going. *)
Theorem quit_ends_the_run (h : Host) (cfg : Config) (before after : list Step)
    (s s1 : State) (id : string) :
  run h cfg before s = Returned (Some s1) ->
  (id = "q"%string \/ id = "<C-c>"%string ->
   run h cfg (before ++ UiEvent id :: after) s = Returned None)
  /\ (onEvent cfg id s1 = Quit -> id = "q"%string \/ id = "<C-c>"%string).
Proof.
  intros Hrun. split.
  - intros Hid. rewrite run_app, Hrun. simpl.
    now destruct Hid as [-> | ->].
  - unfold onEvent.
    destruct (oneOf id ["q"; "<C-c>"]%string) eqn:Hq.
    + intros _. unfold oneOf in Hq. simpl in Hq.
      rewrite !orb_true_iff in Hq.
      destruct Hq as [Hq | [Hq | Hq]]; [| | discriminate Hq];
        apply String.eqb_eq in Hq; auto.
    + repeat match goal with
             | |- context [if oneOf id ?l then _ else _] => destruct (oneOf id l)
             end; discriminate.
Qed.

Lemma quit_ends_the_run_witness :
  run Fixture.plain Fixture.three
    ([SyncJob (Fixture.tick (80, 24) None)]
     ++ UiEvent "q" :: [SyncJob (Fixture.tick (80, 24) None)]) initial
  = Returned None.
Proof.
  apply (proj1 (quit_ends_the_run Fixture.plain Fixture.three
                  [SyncJob (Fixture.tick (80, 24) None)]
                  [SyncJob (Fixture.tick (80, 24) None)]
                  initial (Fixture.afterTick Fixture.three (80, 24) None) "q"
                  ltac:(vm_compute; reflexivity))).
  now left.
Defined.

End LoopFacts.

(** ** The rectangles of the layout *)

Module GeometryFacts.

Import Ui Dash Spec Derived GoIntFacts.

Ltac unwrap :=
  repeat match goal with
         | |- context [GoInt.wrap ?z] =>
             rewrite (wrap_small z) by (unfold GoInt.inRange; lia)
         end.

Ltac fits :=
  cbn [chart0 cRect cSetRect pClock pDate pRect pSetRect X1 X2 Y1 Y2 mkRect
       fontClockWidth fontDateWidth];
  unfold GoInt.sub, GoInt.add; unwrap; lia.

(** X17. On a supported terminal (whose dimensions leave room for one
    more column and row in an [int]) the widgets fit: the chart spans the
    whole width, from the bottom row of the clock, or the one above it,
    down to the last row; the date box ends at the right edge, as high as
    the clock, two columns wider than the date is padded to; the clock is
    padded to a positive width at least three columns short of its box;
    and the clock's box runs at most two columns into the date's. *)
Theorem supported_layout_fits (w ht : Z) (s : State) :
  breakpoint w ht <> Unsupported ->
  w < 2 ^ 63 - 1 ->
  ht < 2 ^ 63 - 1 ->
  let laid := resizeUi (w, ht) s in
  let clock := pRect (pClock laid) in
  let date := pRect (pDate laid) in
  let chart := cRect (chart0 laid) in
  (X1 chart = 0 /\ X2 chart = w + 1 /\ Y2 chart = ht + 1
   /\ Y2 clock - 1 <= Y1 chart <= Y2 clock /\ Y1 chart + 10 <= Y2 chart)
  /\ (X2 date = w + 1 /\ Y2 date = Y2 clock
      /\ fontDateWidth laid + 2 = X2 date - X1 date)
  /\ (0 < fontClockWidth laid <= X2 clock - X1 clock - 3)
  /\ X1 date < X2 clock <= X1 date + 2.
Proof.
  intros Hb Hw Hh. unfold breakpoint, guard in Hb. unfold resizeUi.
  simpl fst. simpl snd.
  destruct ((w =? 240) && (ht =? 30)) eqn:E1;
    [apply andb_prop in E1; destruct E1 as [A B];
     apply Z.eqb_eq in A; apply Z.eqb_eq in B; fits |].
  destruct ((131 <=? w) && (30 <=? ht)) eqn:E2;
    [apply andb_prop in E2; destruct E2 as [A B];
     apply Z.leb_le in A; apply Z.leb_le in B; fits |].
  destruct ((68 <=? w) && (20 <=? ht)) eqn:E3;
    [apply andb_prop in E3; destruct E3 as [A B];
     apply Z.leb_le in A; apply Z.leb_le in B; fits |].
  destruct ((40 <=? w) && (16 <=? ht)) eqn:E4;
    [apply andb_prop in E4; destruct E4 as [A B];
     apply Z.leb_le in A; apply Z.leb_le in B; fits |].
  now elim Hb.
Qed.

Lemma supported_layout_fits_witness :
  (X1 (cRect (chart0 (resizeUi (80, 24) initial))) = 0
   /\ X2 (cRect (chart0 (resizeUi (80, 24) initial))) = 80 + 1
   /\ Y2 (cRect (chart0 (resizeUi (80, 24) initial))) = 24 + 1
   /\ Y2 (pRect (pClock (resizeUi (80, 24) initial))) - 1
      <= Y1 (cRect (chart0 (resizeUi (80, 24) initial)))
      <= Y2 (pRect (pClock (resizeUi (80, 24) initial)))
   /\ Y1 (cRect (chart0 (resizeUi (80, 24) initial))) + 10
      <= Y2 (cRect (chart0 (resizeUi (80, 24) initial))))
  /\ (X2 (pRect (pDate (resizeUi (80, 24) initial))) = 80 + 1
      /\ Y2 (pRect (pDate (resizeUi (80, 24) initial)))
         = Y2 (pRect (pClock (resizeUi (80, 24) initial)))
      /\ fontDateWidth (resizeUi (80, 24) initial) + 2
         = X2 (pRect (pDate (resizeUi (80, 24) initial)))
           - X1 (pRect (pDate (resizeUi (80, 24) initial))))
  /\ (0 < fontClockWidth (resizeUi (80, 24) initial)
      <= X2 (pRect (pClock (resizeUi (80, 24) initial)))
         - X1 (pRect (pClock (resizeUi (80, 24) initial))) - 3)
  /\ X1 (pRect (pDate (resizeUi (80, 24) initial)))
     < X2 (pRect (pClock (resizeUi (80, 24) initial)))
     <= X1 (pRect (pDate (resizeUi (80, 24) initial))) + 2.
Proof.
  apply (supported_layout_fits 80 24 initial).
  - vm_compute. discriminate.
  - vm_compute. reflexivity.
  - vm_compute. reflexivity.
Defined.

End GeometryFacts.

(** ** The panel of a source that answers *)

Module SuccessFacts.

Import Ui Dash Spec Derived.

(** X18. When the query gives a series that is not empty, [syncProm]
    returns, the counter moved by one, with the chart carrying the aligned
    values, their labels on the X axis and the colour of the scan.  Where
    the layout has no label font the chart is drawn alone, titled
    "<title> <newest value><unit>"; where it has one, the metric paragraph
    is drawn first, with the figure of the title in white and the figure
    of the newest value in the status colour, and the chart keeps its
    title. *)
Theorem answered_panel (h : Host) (cfg : Config) (w : Prom.World)
    (s : State) (ds : Datasource) (r0 : list float) (l0 : list string) :
  index (dsConfig cfg) (sourceIndex cfg s) = Returned ds ->
  Prom.prometheusQueryRange w (DsProm ds) (DsQuery ds) (GoInt.sub (width s) 8) 60
    nullValue (timezone cfg) = Returned (r0, l0) ->
  r0 <> [] ->
  let value := (sprintf_01_0f h (last r0 0%float) ++ DsUnit ds)%string in
  exists s',
    syncProm h cfg w s = Returned s'
    /\ syncPromCount s' = GoInt.add (syncPromCount s) 1
    /\ Data (chart0 s') = [r0]
    /\ DataLabels (chart0 s') = l0
    /\ LabelAxesX (chart0 s') = true
    /\ LineColors0 (chart0 s') = lineColor ds r0
    /\ cRect (chart0 s') = cRect (chart0 s)
    /\ (fontLabel s = ""%string ->
        Title (chart0 s') = (DsTitle ds ++ " " ++ value)%string
        /\ drawnSince s s' = [Render [DrawPlot (chart0 s')]])
    /\ (fontLabel s <> ""%string ->
        Title (chart0 s') = Title (chart0 s)
        /\ Text (pMetric s')
           = ("[" ++ join (slicify h (DsTitle ds) (fontLabel s)) ++ "](fg:white)"
              ++ nl ++ "[" ++ join (slicify h value (fontLabel s))
              ++ "](fg:" ++ statusColor ds r0 ++ ")")%string
        /\ drawnSince s s'
           = [Render [DrawParagraph PMetric (pMetric s')];
              Render [DrawPlot (chart0 s')]]).
Proof.
  intros Hi Hr Hne value.
  unfold syncProm, datasourceCount.
  rewrite (PanelFacts.index_nonempty _ _ _ Hi), Hi. simpl bind.
  rewrite Hr. simpl bind. cbn [fst snd].
  destruct r0 as [| d r0]; [congruence |].
  replace (0 <? Z.of_nat (List.length (d :: r0))) with true
    by (symmetry; apply Z.ltb_lt; simpl List.length; lia).
  rewrite PanelFacts.len_positive.
  destruct (String.eqb_spec (fontLabel s) "") as [He | Hlab]; simpl negb;
    eexists; (split; [reflexivity |]); repeat split; try congruence;
    unfold drawnSince; simpl screen.
  - apply (ListFacts.skipn_length_app (screen s) [_]).
  - rewrite <- app_assoc. apply (ListFacts.skipn_length_app (screen s) [_; _]).
Qed.

Lemma answered_panel_witness :
  exists s',
    syncProm Fixture.plain Fixture.three
      (Fixture.answering (Some (Prom.Matrix [Fixture.full])))
      (Fixture.laid (80, 24)) = Returned s'
    /\ syncPromCount s' = GoInt.add (syncPromCount (Fixture.laid (80, 24))) 1
    /\ Data (chart0 s')
       = [fst (Fixture.series Fixture.three
                 (Some (Prom.Matrix [Fixture.full])) (Fixture.laid (80, 24)))]
    /\ DataLabels (chart0 s')
       = snd (Fixture.series Fixture.three
                (Some (Prom.Matrix [Fixture.full])) (Fixture.laid (80, 24)))
    /\ LabelAxesX (chart0 s') = true
    /\ LineColors0 (chart0 s')
       = lineColor Fixture.cpu
           (fst (Fixture.series Fixture.three
                   (Some (Prom.Matrix [Fixture.full])) (Fixture.laid (80, 24))))
    /\ cRect (chart0 s') = cRect (chart0 (Fixture.laid (80, 24)))
    /\ (fontLabel (Fixture.laid (80, 24)) = ""%string ->
        Title (chart0 s')
        = (DsTitle Fixture.cpu ++ " "
           ++ (sprintf_01_0f Fixture.plain
                 (last (fst (Fixture.series Fixture.three
                               (Some (Prom.Matrix [Fixture.full]))
                               (Fixture.laid (80, 24)))) 0%float)
               ++ DsUnit Fixture.cpu))%string
        /\ drawnSince (Fixture.laid (80, 24)) s' = [Render [DrawPlot (chart0 s')]])
    /\ (fontLabel (Fixture.laid (80, 24)) <> ""%string ->
        Title (chart0 s') = Title (chart0 (Fixture.laid (80, 24)))
        /\ Text (pMetric s')
           = ("[" ++ join (slicify Fixture.plain (DsTitle Fixture.cpu)
                             (fontLabel (Fixture.laid (80, 24))))
              ++ "](fg:white)" ++ nl
              ++ "[" ++ join (slicify Fixture.plain
                                (sprintf_01_0f Fixture.plain
                                   (last (fst (Fixture.series Fixture.three
                                                 (Some (Prom.Matrix [Fixture.full]))
                                                 (Fixture.laid (80, 24)))) 0%float)
                                 ++ DsUnit Fixture.cpu)
                                (fontLabel (Fixture.laid (80, 24))))
              ++ "](fg:"
              ++ statusColor Fixture.cpu
                   (fst (Fixture.series Fixture.three
                           (Some (Prom.Matrix [Fixture.full]))
                           (Fixture.laid (80, 24))))
              ++ ")")%string
        /\ drawnSince (Fixture.laid (80, 24)) s'
           = [Render [DrawParagraph PMetric (pMetric s')];
              Render [DrawPlot (chart0 s')]]).
Proof.
  apply (answered_panel Fixture.plain Fixture.three
           (Fixture.answering (Some (Prom.Matrix [Fixture.full])))
           (Fixture.laid (80, 24)) Fixture.cpu
           (fst (Fixture.series Fixture.three
                   (Some (Prom.Matrix [Fixture.full])) (Fixture.laid (80, 24))))
           (snd (Fixture.series Fixture.three
                   (Some (Prom.Matrix [Fixture.full])) (Fixture.laid (80, 24))))).
  - reflexivity.
  - vm_compute. reflexivity.
  - vm_compute. discriminate.
Defined.

End SuccessFacts.
